(** * Log-ratio transforms of eis_toolkit (coda/alr.py, coda/clr.py)

    A shallow embedding of [eis_toolkit.transformations.coda.alr] together
    with the fragment of pandas / numpy it calls, and the properties of the
    additive and centered log-ratio transforms.

    Layout:
    - [Float64]  : float64 cells (IEEE special values over the reals);
    - [Pandas]   : Series / DataFrame values and the operations used;
    - [PyList]   : the list operations used;
    - [Py]       : Python objects, the object store and the exception monad;
    - [PyOps]    : the pandas, numpy and list calls, on references;
    - [Checks]   : the validators of [eis_toolkit.utilities.checks];
    - [Alr]      : the functions of alr.py, statement by statement;
    - [Clr]      : the centered log-ratio transform;
    - [Outcome]  : what a call does, seen from the caller;
    - [TestData], [Examples] : the tables used;
    - the proofs. *)

From Stdlib Require Import Reals Lra Lia ZArith Bool String List.
Import ListNotations.

(* ================================================================== *)
(** ** float64 cells *)

Module Float64.

(** A float64 is a NaN, an infinity or a finite number.  Finite numbers
    are carried as reals: rounding, overflow, underflow and the sign of
    zero are not tracked (a zero cell is +0.0; a quotient of two finite
    numbers is their exact quotient, where float64 may give 0.0 or an
    infinity). *)
Inductive float64 : Type :=
| NaN
| NegInf
| PosInf
| Fin (r : R).

Definition Rltb (a b : R) : bool := if Rlt_dec a b then true else false.
Definition Reqb (a b : R) : bool := if Req_dec_T a b then true else false.

(** [numpy.isnan] *)
Definition isnan (x : float64) : bool :=
  match x with NaN => true | _ => false end.

(** [x > 0] *)
Definition gt0 (x : float64) : bool :=
  match x with
  | PosInf => true
  | Fin r => Rltb 0 r
  | _ => false
  end.

(** [x / y] under numpy's float semantics: division by zero raises
    nothing, it gives an infinity (or NaN for 0/0). *)
Definition truediv (x y : float64) : float64 :=
  match x, y with
  | NaN, _ | _, NaN => NaN
  | (NegInf | PosInf), (NegInf | PosInf) => NaN
  | PosInf, Fin b => if Rltb b 0 then NegInf else PosInf
  | NegInf, Fin b => if Rltb b 0 then PosInf else NegInf
  | Fin _, (NegInf | PosInf) => Fin 0
  | Fin a, Fin b =>
      if Reqb b 0 then
        if Reqb a 0 then NaN
        else if Rltb a 0 then NegInf else PosInf
      else Fin (a / b)
  end.

(** [numpy.log]: log 0 = -inf, log of a negative number is NaN. *)
Definition log (x : float64) : float64 :=
  match x with
  | NaN => NaN
  | NegInf => NaN
  | PosInf => PosInf
  | Fin r =>
      if Rltb r 0 then NaN
      else if Reqb r 0 then NegInf
      else Fin (ln r)
  end.

(** [x * y] *)
Definition mul (x y : float64) : float64 :=
  match x, y with
  | NaN, _ | _, NaN => NaN
  | PosInf, PosInf | NegInf, NegInf => PosInf
  | PosInf, NegInf | NegInf, PosInf => NegInf
  | PosInf, Fin b | Fin b, PosInf =>
      if Reqb b 0 then NaN else if Rltb b 0 then NegInf else PosInf
  | NegInf, Fin b | Fin b, NegInf =>
      if Reqb b 0 then NaN else if Rltb b 0 then PosInf else NegInf
  | Fin a, Fin b => Fin (a * b)
  end.

(** [x ** (1 / n)], the n-th root. *)
Definition root (n : nat) (x : float64) : float64 :=
  match x with
  | NaN => NaN
  | NegInf => NaN
  | PosInf => PosInf
  | Fin r =>
      if Rltb r 0 then NaN
      else if Reqb r 0 then Fin 0
      else Fin (Rpower r (/ INR n))
  end.

End Float64.

(* ================================================================== *)
(** ** pandas values *)

Module Pandas.
Import Float64.

(** A Series: row labels and one value per row. *)
Record Series : Type := mkSeries {
  s_index : list Z;
  s_values : list float64
}.

(** A DataFrame: row labels and the labelled columns, in order.  Column
    labels are strings: a frame labelled otherwise (by integers, say) does
    not pass the [Sequence[str]] annotation of [_alr_transform] and has no
    counterpart here. *)
Record DataFrame : Type := mkDataFrame {
  df_index : list Z;
  df_data : list (string * list float64)
}.

(** [df.columns] *)
Definition columns (df : DataFrame) : list string := map fst (df_data df).

(** [len(df.columns)] *)
Definition n_columns (df : DataFrame) : Z := Z.of_nat (length (df_data df)).

(** [df.isnull().values.any()] *)
Definition isnull_any (df : DataFrame) : bool :=
  existsb (fun c => existsb isnan (snd c)) (df_data df).

(** [cols[idx]] on an Index: negative positions count from the end,
    [None] stands for IndexError. *)
Definition index_getitem (cols : list string) (idx : Z) : option string :=
  let n := Z.of_nat (length cols) in
  if (0 <=? idx)%Z then nth_error cols (Z.to_nat idx)
  else if (- n <=? idx)%Z then nth_error cols (Z.to_nat (n + idx))
  else None.

Definition has_label (name : string) (c : string * list float64) : bool :=
  String.eqb (fst c) name.

(** [df[name]]: the column labelled [name] as a Series; [None] stands for
    KeyError.  (Frames with a repeated label, where pandas answers with a
    frame, are outside the fragment modelled.) *)
Definition getitem (df : DataFrame) (name : string) : option Series :=
  match find (has_label name) (df_data df) with
  | Some c => Some (mkSeries (df_index df) (snd c))
  | None => None
  end.

(** The columns picked by a list of labels: for each label, in the order
    asked, every column that carries it. *)
Fixpoint take_labels (data : list (string * list float64)) (names : list string)
  : option (list (string * list float64)) :=
  match names with
  | [] => Some []
  | name :: rest =>
      match filter (has_label name) data with
      | [] => None
      | found =>
          match take_labels data rest with
          | Some more => Some (found ++ more)
          | None => None
          end
      end
  end.

(** [df[names]] for a list of labels; [None] stands for KeyError. *)
Definition getitem_list (df : DataFrame) (names : list string) : option DataFrame :=
  match take_labels (df_data df) names with
  | Some data => Some (mkDataFrame (df_index df) data)
  | None => None
  end.

Fixpoint zip_with {A B C : Type} (f : A -> B -> C) (xs : list A) (ys : list B) : list C :=
  match xs, ys with
  | x :: xs', y :: ys' => f x y :: zip_with f xs' ys'
  | _, _ => []
  end.

(** [df.div(s, axis=0)]: every column divided row by row by [s].  In the
    code both operands are cut from one frame, so they carry the same row
    index and the alignment pandas performs is the identity. *)
Definition div_axis0 (df : DataFrame) (s : Series) : DataFrame :=
  mkDataFrame (df_index df)
    (map (fun c => (fst c, zip_with truediv (snd c) (s_values s))) (df_data df)).

(** [np.log(df)] *)
Definition np_log (df : DataFrame) : DataFrame :=
  mkDataFrame (df_index df) (map (fun c => (fst c, map log (snd c))) (df_data df)).

(** Row [i] of the frame, across its columns. *)
Definition row (df : DataFrame) (i : nat) : list float64 :=
  map (fun c => nth i (snd c) NaN) (df_data df).

End Pandas.

(* ================================================================== *)
(** ** Python lists of strings *)

Module PyList.

(** [x in l] *)
Definition contains (x : string) (l : list string) : bool :=
  existsb (String.eqb x) l.

(** [l.remove(x)]: drops the first occurrence; [None] stands for
    ValueError (x not in list). *)
Fixpoint remove (x : string) (l : list string) : option (list string) :=
  match l with
  | [] => None
  | y :: l' =>
      if String.eqb y x then Some l'
      else match remove x l' with
           | Some r => Some (y :: r)
           | None => None
           end
  end.

End PyList.

(* ================================================================== *)
(** ** Python objects, the object store, exceptions *)

Module Py.
Import Pandas.

Inductive exn : Type :=
| InvalidCompositionException
| InvalidColumnIndexException
| InvalidParameterValueException
| NumericValueSignException
| BeartypeCallHintViolation
| KeyError
| IndexError
| ValueError
| NotImplementedError.

(** The objects a call can hold a reference to.  A Python list is mutable:
    [append] and [remove] change the object every alias sees. *)
Inductive obj : Type :=
| ODataFrame (df : DataFrame)
| OSeries (s : Series)
| OList (l : list string).

(** References are positions in the store; a new object goes to the end. *)
Definition ref : Type := nat.
Definition store : Type := list obj.

Inductive result (A : Type) : Type :=
| Ok (a : A)
| Raise (e : exn).
Arguments Ok {A} a.
Arguments Raise {A} e.

(** A computation reads and changes the store and returns or raises. *)
Definition M (A : Type) : Type := store -> result A * store.

Definition ret {A : Type} (a : A) : M A := fun st => (Ok a, st).

Definition raise {A : Type} (e : exn) : M A := fun st => (Raise e, st).

Definition bind {A B : Type} (m : M A) (k : A -> M B) : M B :=
  fun st =>
    match m st with
    | (Ok a, st') => k a st'
    | (Raise e, st') => (Raise e, st')
    end.

Definition alloc (o : obj) : M ref := fun st => (Ok (length st), st ++ [o]).

Fixpoint update (st : store) (r : ref) (o : obj) : store :=
  match st, r with
  | [], _ => []
  | _ :: st', O => o :: st'
  | x :: st', S r' => x :: update st' r' o
  end.

Definition write (r : ref) (o : obj) : M unit := fun st => (Ok tt, update st r o).

(** Reading a reference as an object of one class; an object of another
    class has none of the attributes asked for. *)
Definition read_frame (r : ref) : M DataFrame :=
  fun st =>
    match nth_error st r with
    | Some (ODataFrame df) => (Ok df, st)
    | _ => (Raise BeartypeCallHintViolation, st)
    end.

Definition read_series (r : ref) : M Series :=
  fun st =>
    match nth_error st r with
    | Some (OSeries s) => (Ok s, st)
    | _ => (Raise BeartypeCallHintViolation, st)
    end.

Definition read_list (r : ref) : M (list string) :=
  fun st =>
    match nth_error st r with
    | Some (OList l) => (Ok l, st)
    | _ => (Raise BeartypeCallHintViolation, st)
    end.

Definition of_option {A : Type} (e : exn) (o : option A) : M A :=
  match o with
  | Some a => ret a
  | None => raise e
  end.

End Py.

Declare Scope py_scope.
Delimit Scope py_scope with py.
Notation "x <- m ;; k" := (Py.bind m (fun x => k))
  (at level 61, m at next level, right associativity) : py_scope.
Notation "m ;; k" := (Py.bind m (fun _ => k))
  (at level 61, right associativity) : py_scope.
Open Scope py_scope.

(* ================================================================== *)
(** ** pandas, numpy and list operations on references *)

Module PyOps.
Import Pandas Py.

(** [df.isnull().values.any()] *)
Definition DataFrame_isnull_any (df : ref) : M bool :=
  d <- read_frame df ;;
  ret (isnull_any d).

(** [[col for col in df.columns]]: a list of its own. *)
Definition list_of_columns (df : ref) : M ref :=
  d <- read_frame df ;;
  alloc (OList (columns d)).

(** [df.columns[idx]] *)
Definition DataFrame_columns_getitem (df : ref) (idx : Z) : M string :=
  d <- read_frame df ;;
  of_option IndexError (index_getitem (columns d) idx).

(** [x in l] *)
Definition list_contains (x : string) (l : ref) : M bool :=
  xs <- read_list l ;;
  ret (PyList.contains x xs).

(** [l.append(x)] *)
Definition list_append (l : ref) (x : string) : M unit :=
  xs <- read_list l ;;
  write l (OList (xs ++ [x])).

(** [l.remove(x)] *)
Definition list_remove (l : ref) (x : string) : M unit :=
  xs <- read_list l ;;
  xs' <- of_option ValueError (PyList.remove x xs) ;;
  write l (OList xs').

(** [df[columns]] with a list of labels: a new frame. *)
Definition DataFrame_getitem_list (df columns : ref) : M ref :=
  d <- read_frame df ;;
  names <- read_list columns ;;
  sel <- of_option KeyError (getitem_list d names) ;;
  alloc (ODataFrame sel).

(** [df[name]] with one label: a new Series. *)
Definition DataFrame_getitem (df : ref) (name : string) : M ref :=
  d <- read_frame df ;;
  s <- of_option KeyError (getitem d name) ;;
  alloc (OSeries s).

(** [df.div(s, axis=0)]: a new frame. *)
Definition DataFrame_div (df s : ref) : M ref :=
  d <- read_frame df ;;
  v <- read_series s ;;
  alloc (ODataFrame (div_axis0 d v)).

(** [np.log(df)]: a new frame. *)
Definition np_log_frame (df : ref) : M ref :=
  d <- read_frame df ;;
  alloc (ODataFrame (np_log d)).

(** beartype's check of an argument or result annotated [pd.DataFrame]. *)
Definition beartype_DataFrame (r : ref) : M unit :=
  _ <- read_frame r ;; ret tt.

(** beartype's check of an argument annotated [Sequence[str]]. *)
Definition beartype_Sequence_str (r : ref) : M unit :=
  _ <- read_list r ;; ret tt.

End PyOps.

(* ================================================================== *)
(** ** eis_toolkit.utilities.checks *)

Module Checks.
Import Pandas Py PyOps.

(** Modelled from the spec: [check_column_index_in_dataframe] lives in
    eis_toolkit/utilities/checks/dataframe.py, which is not among the
    sources.  The specification gives its contract: an integer index
    addresses an existing column exactly when it lies in
    [-n_columns .. n_columns-1]. *)
Definition check_column_index_in_dataframe (df : ref) (idx : Z) : M bool :=
  d <- read_frame df ;;
  ret ((- n_columns d <=? idx)%Z && (idx <? n_columns d)%Z).

(** Modelled from the spec: the decorator [check_compositional] lives in
    eis_toolkit/utilities/checks/coda.py, which is not among the sources.
    The specification gives its contract: fail with InvalidComposition if
    any cell is null, before the decorated function runs; on the ALR path
    it checks nothing else. *)
Definition check_compositional {A : Type} (func : ref -> M A) (df : ref) : M A :=
  has_null <- DataFrame_isnull_any df ;;
  if has_null : bool then raise InvalidCompositionException
  else func df.

End Checks.

(* ================================================================== *)
(** ** eis_toolkit/transformations/coda/alr.py *)

Module Alr.
Import Pandas Py PyOps Checks.

(** [_alr_transform_old(df, columns, denominator_column)] *)
Definition _alr_transform_old (df columns : ref) (denominator_column : string) : M ref :=
  beartype_DataFrame df ;;
  beartype_Sequence_str columns ;;
  selected <- DataFrame_getitem_list df columns ;;
  denominator <- DataFrame_getitem df denominator_column ;;
  ratios <- DataFrame_div selected denominator ;;
  out <- np_log_frame ratios ;;
  beartype_DataFrame out ;;
  ret out.

(** [_alr_transform(df, columns, denominator_column)] *)
Definition _alr_transform (df columns : ref) (denominator_column : string) : M ref :=
  beartype_DataFrame df ;;
  beartype_Sequence_str columns ;;
  selected <- DataFrame_getitem_list df columns ;;
  denominator <- DataFrame_getitem df denominator_column ;;
  ratios <- DataFrame_div selected denominator ;;
  out <- np_log_frame ratios ;;
  beartype_DataFrame out ;;
  ret out.

(** The body of [alr_transform], under its decorators. *)
Definition alr_transform_body (idx : Z) (keep_redundant_column : bool) (df : ref) : M ref :=
  has_null <- DataFrame_isnull_any df ;;
  if has_null : bool then raise InvalidCompositionException else
  columns <- list_of_columns df ;;
  in_bounds <- check_column_index_in_dataframe df idx ;;
  if negb in_bounds then raise InvalidColumnIndexException else
  denominator_column <- DataFrame_columns_getitem df idx ;;
  present <- list_contains denominator_column columns ;;
  (if negb present then list_append columns denominator_column else ret tt) ;;
  (if negb keep_redundant_column
   then present' <- list_contains denominator_column columns ;;
        if present' : bool then list_remove columns denominator_column else ret tt
   else ret tt) ;;
  _alr_transform df columns denominator_column.

(** The defaults of the keyword arguments. *)
Definition default_idx : Z := (-1)%Z.
Definition default_keep_redundant_column : bool := false.

(** [alr_transform(df, idx=-1, keep_redundant_column=False)], decorated
    with [@beartype] and [@check_compositional]. *)
Definition alr_transform (df : ref) (idx : Z) (keep_redundant_column : bool) : M ref :=
  beartype_DataFrame df ;;
  out <- check_compositional (alr_transform_body idx keep_redundant_column) df ;;
  beartype_DataFrame out ;;
  ret out.

(** [alr_transform] with the branch that appends the denominator left out. *)
Definition alr_transform_body_no_append (idx : Z) (keep_redundant_column : bool) (df : ref)
  : M ref :=
  has_null <- DataFrame_isnull_any df ;;
  if has_null : bool then raise InvalidCompositionException else
  columns <- list_of_columns df ;;
  in_bounds <- check_column_index_in_dataframe df idx ;;
  if negb in_bounds then raise InvalidColumnIndexException else
  denominator_column <- DataFrame_columns_getitem df idx ;;
  (if negb keep_redundant_column
   then present' <- list_contains denominator_column columns ;;
        if present' : bool then list_remove columns denominator_column else ret tt
   else ret tt) ;;
  _alr_transform df columns denominator_column.

(** [inverse_alr()] *)
Definition inverse_alr : M ref := raise NotImplementedError.

End Alr.

(* ================================================================== *)
(** ** eis_toolkit/transformations/coda/clr.py *)

Module Clr.
Import Float64 Pandas Py PyOps Checks.

(** [(df > 0).all().all()] *)
Definition all_positive (d : DataFrame) : bool :=
  forallb (fun c => forallb gt0 (snd c)) (df_data d).

(** The geometric mean of a row: the n-th root of the product. *)
Definition geometric_mean (xs : list float64) : float64 :=
  root (length xs) (fold_right mul (Fin 1) xs).

(** The geometric mean of every row, as a Series over the row index. *)
Definition row_geometric_means (d : DataFrame) : Series :=
  mkSeries (df_index d)
    (map (fun i => geometric_mean (row d i)) (seq 0 (length (df_index d)))).

(** Modelled from the spec: [clr_transform] lives in
    eis_toolkit/transformations/coda/clr.py, which is not among the sources
    (only its test is).  The specification gives the algorithm: reject a
    table with a null (InvalidComposition), reject a table with a zero or
    negative cell (NumericValueSign), divide every cell by the geometric
    mean of its row, take the natural logarithm, return a new table of the
    same shape and columns. *)
Definition clr_transform (df : ref) : M ref :=
  beartype_DataFrame df ;;
  check_compositional
    (fun df =>
       d <- read_frame df ;;
       if negb (all_positive d) then raise NumericValueSignException else
       means <- alloc (OSeries (row_geometric_means d)) ;;
       centered <- DataFrame_div df means ;;
       np_log_frame centered)
    df.

End Clr.

(* ================================================================== *)
(** ** What a call does, seen from the caller *)

Module Outcome.
Import Pandas Py.

(** The call returns a reference to a frame whose value is [out]. *)
Definition returns_frame (m : M ref) (st : store) (out : DataFrame) : Prop :=
  exists r st', m st = (Ok r, st') /\ nth_error st' r = Some (ODataFrame out).

(** The call raises [e]. *)
Definition raises {A : Type} (m : M A) (st : store) (e : exn) : Prop :=
  exists st', m st = (Raise e, st').

(** Some cell of the frame is a null. *)
Definition has_null (d : DataFrame) : Prop :=
  exists c, In c (df_data d) /\ In Float64.NaN (snd c).

(** Every cell is a finite, strictly positive number. *)
Definition strictly_positive (d : DataFrame) : Prop :=
  Forall (fun c => Forall (fun x => exists r, x = Float64.Fin r /\ (0 < r)%R) (snd c))
         (df_data d).

(** A valid composition table: distinct column names, strictly positive
    cells. *)
Definition valid_composition (d : DataFrame) : Prop :=
  NoDup (columns d) /\ strictly_positive d.

(** The values stored under a column name in a frame. *)
Definition column_values (d : DataFrame) (name : string) : list (list Float64.float64) :=
  map snd (filter (has_label name) (df_data d)).

(** What a call on a null-free frame with an index in bounds comes to: the
    labels picked as numerators, the frame and the Series cut from the
    input, and the objects the call leaves in the store. *)
Definition alr_run (d : DataFrame) (idx : Z) (keep : bool)
           (den : string) (names : list string) (sel : DataFrame) (s : Series) : Prop :=
  index_getitem (columns d) idx = Some den
  /\ PyList.contains den (columns d) = true
  /\ (if keep then names = columns d
      else PyList.remove den (columns d) = Some names)
  /\ getitem_list d names = Some sel
  /\ getitem d den = Some s.

End Outcome.

(* ================================================================== *)
(** ** The tables of the test suite (clr_test.py) *)

Module TestData.
Import Float64 Pandas.
Local Open Scope string_scope.

Definition SINGLE_ROW_DATAFRAME : DataFrame :=
  mkDataFrame [0%Z]
    [("a", [Fin 1]); ("b", [Fin 1]); ("c", [Fin 1]); ("d", [Fin 2])].

Definition ONES_DATAFRAME_4x4 : DataFrame :=
  mkDataFrame [0%Z; 1%Z; 2%Z; 3%Z]
    [("a", [Fin 1; Fin 1; Fin 1; Fin 1]); ("b", [Fin 1; Fin 1; Fin 1; Fin 1]);
     ("c", [Fin 1; Fin 1; Fin 1; Fin 1]); ("d", [Fin 1; Fin 1; Fin 1; Fin 1])].

Definition ZEROS_DATAFRAME_4x4 : DataFrame :=
  mkDataFrame [0%Z; 1%Z; 2%Z; 3%Z]
    [("a", [Fin 0; Fin 0; Fin 0; Fin 0]); ("b", [Fin 0; Fin 0; Fin 0; Fin 0]);
     ("c", [Fin 0; Fin 0; Fin 0; Fin 0]); ("d", [Fin 0; Fin 0; Fin 0; Fin 0])].

Definition SAMPLE_DATAFRAME : DataFrame :=
  mkDataFrame [0%Z; 1%Z]
    [("a", [Fin 65; Fin 63]); ("b", [Fin 12; Fin 16]);
     ("c", [Fin 18; Fin 15]); ("d", [Fin 5; Fin 6])].

(** The ALR image of the sample the specification gives. *)
Definition SAMPLE_ALR : DataFrame :=
  mkDataFrame [0%Z; 1%Z]
    [("a", [Fin (ln (65 / 5)); Fin (ln (63 / 6))]);
     ("b", [Fin (ln (12 / 5)); Fin (ln (16 / 6))]);
     ("c", [Fin (ln (18 / 5)); Fin (ln (15 / 6))])].

End TestData.

(* ================================================================== *)
(** ** Further tables *)

Module Examples.
Import Float64 Pandas.
Local Open Scope string_scope.

(** One row, a zero in the numerator column [a]. *)
Definition ZERO_NUMERATOR : DataFrame :=
  mkDataFrame [0%Z] [("a", [Fin 0]); ("b", [Fin 5])].

Definition ZERO_NUMERATOR_ALR : DataFrame :=
  mkDataFrame [0%Z] [("a", [NegInf])].

(** One row, zeros in both the numerator and the denominator column. *)
Definition ZERO_BOTH : DataFrame :=
  mkDataFrame [0%Z] [("a", [Fin 0]); ("b", [Fin 0])].

Definition ZERO_BOTH_ALR : DataFrame :=
  mkDataFrame [0%Z] [("a", [NaN])].

(** A table of one column. *)
Definition ONE_COLUMN : DataFrame :=
  mkDataFrame [0%Z; 1%Z] [("a", [Fin 1; Fin 2])].

(** The table without columns over the same rows. *)
Definition NO_COLUMNS : DataFrame :=
  mkDataFrame [0%Z; 1%Z] [].

(** A null in the second row. *)
Definition WITH_NULL : DataFrame :=
  mkDataFrame [0%Z; 1%Z] [("a", [Fin 1; NaN]); ("b", [Fin 2; Fin 3])].

(** First row constant, a zero in the second row. *)
Definition CONSTANT_ROW_AND_ZERO : DataFrame :=
  mkDataFrame [0%Z; 1%Z] [("a", [Fin 2; Fin 0]); ("b", [Fin 2; Fin 1])].

(** Two columns under one name. *)
Definition REPEATED_LABELS : DataFrame :=
  mkDataFrame [0%Z] [("a", [Fin 1]); ("a", [Fin 2])].

End Examples.

(* ================================================================== *)
(** ** Shapes and contents of frames *)

Module Frames.
Import Float64 Pandas Py.

(** Every column has one value per row label. *)
Definition rectangular (d : DataFrame) : Prop :=
  Forall (fun c => length (snd c) = length (df_index d)) (df_data d).

(** The columns that do not carry the label [name]. *)
Definition without_label (name : string) (data : list (string * list float64))
  : list (string * list float64) :=
  filter (fun c => negb (has_label name c)) data.

(** Every column divided row by row by [den], then logged. *)
Definition log_ratios (den : list float64) (data : list (string * list float64))
  : list (string * list float64) :=
  map (fun c => (fst c, map log (zip_with truediv (snd c) den))) data.

(** The store [st'] holds every object of [st], unchanged, and new ones
    after them. *)
Definition extends (st st' : store) : Prop := exists ext, st' = st ++ ext.

End Frames.

(* ================================================================== *)
(** ** tests/transformations/coda/clr_test.py *)

Module ClrTest.
Import Float64 Pandas Py PyOps Clr.

(** A position on an axis of length [n]: negative positions count from the
    end, [None] stands for IndexError. *)
Definition position (n : nat) (i : Z) : option nat :=
  if (0 <=? i)%Z then
    if (i <? Z.of_nat n)%Z then Some (Z.to_nat i) else None
  else if (- Z.of_nat n <=? i)%Z then Some (Z.to_nat (Z.of_nat n + i))
  else None.

Fixpoint set_nth {A : Type} (l : list A) (n : nat) (x : A) : list A :=
  match l, n with
  | [], _ => []
  | _ :: l', O => x :: l'
  | y :: l', S n' => y :: set_nth l' n' x
  end.

(** The frame with the cell at row [i], column [j] replaced. *)
Definition set_cell (d : DataFrame) (i j : nat) (x : float64) : DataFrame :=
  match nth_error (df_data d) j with
  | Some c => mkDataFrame (df_index d)
                (set_nth (df_data d) j (fst c, set_nth (snd c) i x))
  | None => d
  end.

(** [df.copy()]: a new frame with the same contents. *)
Definition DataFrame_copy (df : ref) : M ref :=
  d <- read_frame df ;;
  alloc (ODataFrame d).

(** [df.iloc[i, j] = x]: the frame object itself is changed. *)
Definition DataFrame_iloc_setitem (df : ref) (i j : Z) (x : float64) : M unit :=
  d <- read_frame df ;;
  row <- of_option IndexError (position (length (df_index d)) i) ;;
  col <- of_option IndexError (position (length (df_data d)) j) ;;
  write df (ODataFrame (set_cell d row col x)).

Definition exn_eqb (a b : exn) : bool :=
  match a, b with
  | InvalidCompositionException, InvalidCompositionException
  | InvalidColumnIndexException, InvalidColumnIndexException
  | InvalidParameterValueException, InvalidParameterValueException
  | NumericValueSignException, NumericValueSignException
  | BeartypeCallHintViolation, BeartypeCallHintViolation
  | KeyError, KeyError
  | IndexError, IndexError
  | ValueError, ValueError
  | NotImplementedError, NotImplementedError => true
  | _, _ => false
  end.

(** [with pytest.raises(expected): block].  The exception expected is
    swallowed ([true]); another one goes through; a block that raises
    nothing makes the test fail ([false]). *)
Definition pytest_raises {A : Type} (expected : exn) (block : M A) : M bool :=
  fun st =>
    match block st with
    | (Ok _, st') => (Ok false, st')
    | (Raise e, st') => if exn_eqb e expected then (Ok true, st') else (Raise e, st')
    end.

(** [test_clr_transform_contains_zeros()], given the reference bound to
    the module's global [SAMPLE_DATAFRAME]. *)
Definition test_clr_transform_contains_zeros (sample_dataframe : ref) : M bool :=
  pytest_raises NumericValueSignException
    (df <- DataFrame_copy sample_dataframe ;;
     DataFrame_iloc_setitem df 0 0 (Fin 0) ;;
     clr_transform df).

End ClrTest.

(* ================================================================== *)
(** * Proofs *)

Import Float64 Pandas Py PyOps Checks Alr Clr Outcome TestData Examples.

(** ** The store *)

Section Store.
Variable st : store.

Lemma lookup_old (ext : store) (r : ref) (o : obj) :
  nth_error st r = Some o -> nth_error (st ++ ext) r = Some o.
Proof.
  intros H. rewrite nth_error_app1; auto.
  apply nth_error_Some. congruence.
Qed.

Lemma lookup_new (ext : store) (k : nat) :
  nth_error (st ++ ext) (length st + k) = nth_error ext k.
Proof.
  rewrite nth_error_app2 by lia. f_equal. lia.
Qed.

Lemma update_new (ext : store) (k : nat) (o : obj) :
  update (st ++ ext) (length st + k) o = st ++ update ext k o.
Proof.
  induction st as [|x st' IH]; simpl; auto. now rewrite IH.
Qed.

Lemma alloc_ext (ext : store) (o : obj) :
  alloc o (st ++ ext) = (Ok (length st + length ext), st ++ (ext ++ [o])).
Proof.
  unfold alloc. now rewrite length_app, app_assoc.
Qed.

End Store.

Lemma bind_run {A B : Type} (m : M A) (k : A -> M B) (st st' : store) (a : A) :
  m st = (Ok a, st') -> bind m k st = k a st'.
Proof. intros H. unfold bind. now rewrite H. Qed.

(** ** Each operation, run on a store that holds its operands *)

Section Run.
Variable st : store.

Lemma run_read_frame (r : ref) (d : DataFrame) :
  nth_error st r = Some (ODataFrame d) -> read_frame r st = (Ok d, st).
Proof. intros H. unfold read_frame. now rewrite H. Qed.

Lemma run_read_list (r : ref) (l : list string) :
  nth_error st r = Some (OList l) -> read_list r st = (Ok l, st).
Proof. intros H. unfold read_list. now rewrite H. Qed.

Lemma run_read_series (r : ref) (s : Series) :
  nth_error st r = Some (OSeries s) -> read_series r st = (Ok s, st).
Proof. intros H. unfold read_series. now rewrite H. Qed.

Lemma run_beartype_DataFrame (r : ref) (d : DataFrame) :
  nth_error st r = Some (ODataFrame d) -> beartype_DataFrame r st = (Ok tt, st).
Proof.
  intros H. unfold beartype_DataFrame.
  now unfold bind; rewrite (run_read_frame _ _ H).
Qed.

Lemma run_beartype_Sequence_str (r : ref) (l : list string) :
  nth_error st r = Some (OList l) -> beartype_Sequence_str r st = (Ok tt, st).
Proof.
  intros H. unfold beartype_Sequence_str.
  now unfold bind; rewrite (run_read_list _ _ H).
Qed.

Lemma run_isnull_any (r : ref) (d : DataFrame) :
  nth_error st r = Some (ODataFrame d) ->
  DataFrame_isnull_any r st = (Ok (isnull_any d), st).
Proof.
  intros H. unfold DataFrame_isnull_any.
  now unfold bind; rewrite (run_read_frame _ _ H).
Qed.

Lemma run_list_of_columns (r : ref) (d : DataFrame) :
  nth_error st r = Some (ODataFrame d) ->
  list_of_columns r st = alloc (OList (columns d)) st.
Proof.
  intros H. unfold list_of_columns.
  now unfold bind; rewrite (run_read_frame _ _ H).
Qed.

Lemma run_check_column_index (r : ref) (d : DataFrame) (idx : Z) :
  nth_error st r = Some (ODataFrame d) ->
  check_column_index_in_dataframe r idx st
  = (Ok ((- n_columns d <=? idx)%Z && (idx <? n_columns d)%Z), st).
Proof.
  intros H. unfold check_column_index_in_dataframe.
  now unfold bind; rewrite (run_read_frame _ _ H).
Qed.

Lemma run_columns_getitem (r : ref) (d : DataFrame) (idx : Z) (name : string) :
  nth_error st r = Some (ODataFrame d) ->
  index_getitem (columns d) idx = Some name ->
  DataFrame_columns_getitem r idx st = (Ok name, st).
Proof.
  intros H Hn. unfold DataFrame_columns_getitem.
  unfold bind; rewrite (run_read_frame _ _ H). now rewrite Hn.
Qed.

Lemma run_list_contains (l : ref) (xs : list string) (x : string) :
  nth_error st l = Some (OList xs) ->
  list_contains x l st = (Ok (PyList.contains x xs), st).
Proof.
  intros H. unfold list_contains.
  now unfold bind; rewrite (run_read_list _ _ H).
Qed.

Lemma run_list_append (l : ref) (xs : list string) (x : string) :
  nth_error st l = Some (OList xs) ->
  list_append l x st = (Ok tt, update st l (OList (xs ++ [x]))).
Proof.
  intros H. unfold list_append.
  now unfold bind; rewrite (run_read_list _ _ H).
Qed.

Lemma run_list_remove (l : ref) (xs xs' : list string) (x : string) :
  nth_error st l = Some (OList xs) ->
  PyList.remove x xs = Some xs' ->
  list_remove l x st = (Ok tt, update st l (OList xs')).
Proof.
  intros H Hr. unfold list_remove.
  unfold bind; rewrite (run_read_list _ _ H). now rewrite Hr.
Qed.

Lemma run_getitem_list (r l : ref) (d sel : DataFrame) (names : list string) :
  nth_error st r = Some (ODataFrame d) ->
  nth_error st l = Some (OList names) ->
  getitem_list d names = Some sel ->
  DataFrame_getitem_list r l st = alloc (ODataFrame sel) st.
Proof.
  intros H Hl Hs. unfold DataFrame_getitem_list.
  unfold bind; rewrite (run_read_frame _ _ H).
  unfold bind; rewrite (run_read_list _ _ Hl). now rewrite Hs.
Qed.

Lemma run_getitem (r : ref) (d : DataFrame) (name : string) (s : Series) :
  nth_error st r = Some (ODataFrame d) ->
  getitem d name = Some s ->
  DataFrame_getitem r name st = alloc (OSeries s) st.
Proof.
  intros H Hs. unfold DataFrame_getitem.
  unfold bind; rewrite (run_read_frame _ _ H). now rewrite Hs.
Qed.

Lemma run_div (r p : ref) (d : DataFrame) (s : Series) :
  nth_error st r = Some (ODataFrame d) ->
  nth_error st p = Some (OSeries s) ->
  DataFrame_div r p st = alloc (ODataFrame (div_axis0 d s)) st.
Proof.
  intros H Hp. unfold DataFrame_div.
  unfold bind; rewrite (run_read_frame _ _ H).
  now unfold bind; rewrite (run_read_series _ _ Hp).
Qed.

Lemma run_np_log (r : ref) (d : DataFrame) :
  nth_error st r = Some (ODataFrame d) ->
  np_log_frame r st = alloc (ODataFrame (np_log d)) st.
Proof.
  intros H. unfold np_log_frame.
  now unfold bind; rewrite (run_read_frame _ _ H).
Qed.

End Run.

(** ** Labels, positions and lists *)

Lemma contains_In (x : string) (l : list string) :
  PyList.contains x l = true <-> In x l.
Proof.
  unfold PyList.contains. rewrite existsb_exists. split.
  - intros [y [Hy E]]. apply String.eqb_eq in E. now subst.
  - intros H. exists x. split; auto. apply String.eqb_refl.
Qed.

Lemma remove_In (x : string) (l : list string) :
  In x l ->
  exists r, PyList.remove x l = Some r
            /\ (forall y, In y r -> In y l)
            /\ (NoDup l -> ~ In x r).
Proof.
  induction l as [|y l IH]; simpl; [tauto|].
  intros H. destruct (String.eqb y x) eqn:E.
  - apply String.eqb_eq in E. subst y. exists l. repeat split; auto.
    intros ND. now inversion ND.
  - apply String.eqb_neq in E. destruct H as [H|H]; [congruence|].
    destruct (IH H) as [r [-> [Hin Hnd]]]. exists (y :: r). repeat split.
    + intros z [Hz|Hz]; simpl; auto.
    + intros ND [Hx|Hx]; [congruence|]. inversion ND. tauto.
Qed.

Lemma index_getitem_in_bounds (cols : list string) (idx : Z) :
  ((- Z.of_nat (length cols) <=? idx)%Z && (idx <? Z.of_nat (length cols))%Z) = true ->
  exists name, index_getitem cols idx = Some name /\ In name cols.
Proof.
  intros H. apply andb_true_iff in H. destruct H as [Hlo Hhi].
  apply Z.leb_le in Hlo. apply Z.ltb_lt in Hhi.
  unfold index_getitem. cbv zeta.
  destruct (0 <=? idx)%Z eqn:E0.
  - apply Z.leb_le in E0.
    destruct (nth_error cols (Z.to_nat idx)) as [name|] eqn:En.
    + exists name. split; auto. eapply nth_error_In; eauto.
    + apply nth_error_None in En. lia.
  - apply Z.leb_gt in E0.
    replace (- Z.of_nat (length cols) <=? idx)%Z with true
      by (symmetry; apply Z.leb_le; lia).
    destruct (nth_error cols (Z.to_nat (Z.of_nat (length cols) + idx))) as [name|] eqn:En.
    + exists name. split; auto. eapply nth_error_In; eauto.
    + apply nth_error_None in En. lia.
Qed.

Lemma filter_has_label_In (name : string) (data : list (string * list float64)) :
  In name (map fst data) -> filter (has_label name) data <> [].
Proof.
  intros H. apply in_map_iff in H. destruct H as [c [Hc Hin]].
  assert (In c (filter (has_label name) data)) as Hf.
  { apply filter_In. split; auto. unfold has_label. rewrite Hc. apply String.eqb_refl. }
  intros E. now rewrite E in Hf.
Qed.

Lemma take_labels_defined (data : list (string * list float64)) (names : list string) :
  (forall name, In name names -> In name (map fst data)) ->
  exists sel, take_labels data names = Some sel.
Proof.
  induction names as [|name rest IH]; simpl; intros H; [eauto|].
  destruct IH as [more ->]; [auto|].
  destruct (filter (has_label name) data) eqn:E.
  - exfalso. eapply filter_has_label_In; eauto.
  - eauto.
Qed.

Lemma filter_has_label_unique (name : string) (data : list (string * list float64)) :
  NoDup (map fst data) -> In name (map fst data) ->
  exists c, filter (has_label name) data = [c] /\ fst c = name /\ In c data.
Proof.
  induction data as [|c data IH]; simpl; [tauto|].
  intros ND H. inversion ND as [|? ? Hc ND']; subst.
  unfold has_label at 1. destruct (String.eqb (fst c) name) eqn:E.
  - apply String.eqb_eq in E. exists c. repeat split; auto. f_equal.
    destruct (filter (has_label name) data) as [|c' ?] eqn:F; auto.
    exfalso. apply Hc. assert (In c' (filter (has_label name) data)) as Hin
      by (rewrite F; now left).
    apply filter_In in Hin. destruct Hin as [Hin Hl].
    unfold has_label in Hl. apply String.eqb_eq in Hl.
    rewrite E, <- Hl. now apply in_map.
  - apply String.eqb_neq in E. destruct H as [H|H]; [congruence|].
    destruct (IH ND' H) as [c' [F [Hf Hin]]]. exists c'. auto.
Qed.

Lemma take_labels_columns (data sel : list (string * list float64)) (names : list string) :
  NoDup (map fst data) ->
  take_labels data names = Some sel ->
  map fst sel = names /\ (forall c, In c sel -> In c data).
Proof.
  intros ND. revert sel. induction names as [|name rest IH]; simpl; intros sel H.
  - inversion H; subst. simpl. tauto.
  - destruct (filter (has_label name) data) as [|c0 l0] eqn:F; [discriminate|].
    destruct (take_labels data rest) as [more|]; [|discriminate].
    inversion H; subst. destruct (IH more eq_refl) as [Hm Hin].
    destruct (filter_has_label_unique name data ND) as [c [Fc [Hc Hcin]]].
    { assert (In c0 (filter (has_label name) data)) as Hf by (rewrite F; now left).
      apply filter_In in Hf. destruct Hf as [Hf Hl].
      unfold has_label in Hl. apply String.eqb_eq in Hl. rewrite <- Hl. now apply in_map. }
    rewrite F in Fc. inversion Fc; subst. simpl. split; [congruence|].
    intros c' [Hc'|Hc']; subst; auto.
Qed.

Lemma take_labels_all (data : list (string * list float64)) :
  NoDup (map fst data) -> take_labels data (map fst data) = Some data.
Proof.
  intros ND.
  assert (forall pre post, data = pre ++ post ->
            take_labels data (map fst post) = Some post) as G.
  { intros pre post. revert pre. induction post as [|c post IH]; intros pre E; auto.
    simpl. destruct (filter_has_label_unique (fst c) data ND) as [c' [F [Hc Hin]]].
    { rewrite E, map_app. apply in_or_app. right. now left. }
    assert (c' = c) as ->.
    { assert (In c (filter (has_label (fst c)) data)) as Hf.
      { apply filter_In. split.
        - rewrite E. apply in_or_app. right. now left.
        - unfold has_label. apply String.eqb_refl. }
      rewrite F in Hf. destruct Hf as [Hf|[]]. auto. }
    rewrite F. rewrite (IH (pre ++ [c])).
    - reflexivity.
    - now rewrite <- app_assoc. }
  apply (G []). reflexivity.
Qed.

Lemma getitem_defined (d : DataFrame) (name : string) :
  In name (columns d) ->
  exists c, getitem d name = Some (mkSeries (df_index d) (snd c))
            /\ fst c = name /\ In c (df_data d).
Proof.
  unfold columns, getitem. intros H.
  destruct (find (has_label name) (df_data d)) as [c|] eqn:F.
  - exists c. apply find_some in F. destruct F as [Hin Hl].
    unfold has_label in Hl. apply String.eqb_eq in Hl. auto.
  - exfalso. apply in_map_iff in H. destruct H as [c [Hc Hin]].
    apply (find_none _ _ F) in Hin. unfold has_label in Hin.
    rewrite Hc, String.eqb_refl in Hin. discriminate.
Qed.

(** ** Running the functions of alr.py *)

Lemma lookup_end (st ext : store) :
  nth_error (st ++ ext) (length st) = nth_error ext 0.
Proof. rewrite <- (Nat.add_0_r (length st)). apply lookup_new. Qed.

Lemma update_end (st : store) (x o : obj) :
  update (st ++ [x]) (length st) o = st ++ [o].
Proof.
  rewrite <- (Nat.add_0_r (length st)). now rewrite update_new.
Qed.

Lemma alloc_run (st : store) (o : obj) :
  alloc o st = (Ok (length st), st ++ [o]).
Proof. reflexivity. Qed.

Ltac lookup :=
  first [ eassumption
        | apply lookup_old; eassumption
        | rewrite lookup_end; reflexivity
        | rewrite lookup_new; reflexivity ].

(** One statement: run the operation at the head of the program, then
    bring the store back to the shape [st ++ [o1; ...; on]]. *)
Ltac step run_lemma :=
  erewrite bind_run by (erewrite run_lemma by lookup;
                        first [ apply alloc_ext | apply alloc_run | reflexivity ]);
  cbn [length app].

(** [_alr_transform], run on a store holding the frame and the list of
    numerator labels: four objects are created, the last is the result. *)
Lemma _alr_transform_run (st : store) (df columns : ref) (d sel : DataFrame)
      (names : list string) (den : string) (s : Series) :
  nth_error st df = Some (ODataFrame d) ->
  nth_error st columns = Some (OList names) ->
  getitem_list d names = Some sel ->
  getitem d den = Some s ->
  _alr_transform df columns den st
  = (Ok (length st + 3),
     st ++ [ODataFrame sel; OSeries s; ODataFrame (div_axis0 sel s);
            ODataFrame (np_log (div_axis0 sel s))]).
Proof.
  intros Hd Hl Hsel Hs. unfold _alr_transform.
  step run_beartype_DataFrame.
  step run_beartype_Sequence_str.
  step run_getitem_list.
  step run_getitem.
  step run_div.
  step run_np_log.
  step run_beartype_DataFrame.
  reflexivity.
Qed.

Lemma bind_assoc {A B C : Type} (m : M A) (f : A -> M B) (g : B -> M C) (st : store) :
  bind (bind m f) g st = bind m (fun x => bind (f x) g) st.
Proof. unfold bind. destruct (m st) as [[a|e] st']; reflexivity. Qed.

Lemma n_columns_length (d : DataFrame) :
  n_columns d = Z.of_nat (length (columns d)).
Proof. unfold n_columns, columns. now rewrite length_map. Qed.

Lemma alr_run_exists (d : DataFrame) (idx : Z) (keep : bool) :
  ((- n_columns d <=? idx)%Z && (idx <? n_columns d)%Z) = true ->
  exists den names sel s, alr_run d idx keep den names sel s.
Proof.
  intros Hidx. rewrite n_columns_length in Hidx.
  destruct (index_getitem_in_bounds _ _ Hidx) as [den [Hden Hin]].
  destruct (getitem_defined d den Hin) as [c [Hs _]].
  assert (exists names,
            (if keep then names = columns d
             else PyList.remove den (columns d) = Some names)
            /\ forall name, In name names -> In name (columns d)) as [names [Hn Hsub]].
  { destruct keep.
    - exists (columns d). auto.
    - destruct (remove_In den (columns d) Hin) as [r [Hr [Hsub _]]]. eauto. }
  destruct (take_labels_defined (df_data d) names Hsub) as [sel Hsel].
  exists den, names, (mkDataFrame (df_index d) sel), (mkSeries (df_index d) (snd c)).
  unfold alr_run, getitem_list. rewrite Hsel.
  repeat split; auto. now apply contains_In.
Qed.

Lemma alr_transform_body_run (st : store) (df : ref) (d : DataFrame) (idx : Z)
      (keep : bool) (den : string) (names : list string) (sel : DataFrame) (s : Series) :
  nth_error st df = Some (ODataFrame d) ->
  isnull_any d = false ->
  ((- n_columns d <=? idx)%Z && (idx <? n_columns d)%Z) = true ->
  alr_run d idx keep den names sel s ->
  alr_transform_body idx keep df st
  = (Ok (length st + 4),
     st ++ [OList names; ODataFrame sel; OSeries s; ODataFrame (div_axis0 sel s);
            ODataFrame (np_log (div_axis0 sel s))]).
Proof.
  intros Hd Hnull Hidx (Hden & Hin & Hnames & Hsel & Hs).
  unfold alr_transform_body.
  step run_isnull_any. rewrite Hnull.
  step run_list_of_columns.
  step run_check_column_index. rewrite Hidx. cbn [negb].
  step run_columns_getitem.
  step run_list_contains. rewrite Hin. cbn [negb].
  erewrite bind_run by reflexivity.
  assert (forall k : unit -> M ref,
            bind (if negb keep
                  then present' <- list_contains den (length st) ;;
                       if present' : bool then list_remove (length st) den else ret tt
                  else ret tt) k (st ++ [OList (columns d)])
            = k tt (st ++ [OList names])) as Hbranch.
  { intros k. destruct keep; cbn [negb].
    - subst names. reflexivity.
    - rewrite bind_assoc. step run_list_contains. rewrite Hin.
      step run_list_remove. now rewrite update_end. }
  rewrite Hbranch.
  erewrite _alr_transform_run; try lookup; try eassumption.
  rewrite length_app, <- app_assoc. cbn [length app].
  now rewrite <- Nat.add_assoc.
Qed.

(** [alr_transform] on a null-free frame with an index in bounds returns;
    its result is the last of five objects added to the store. *)
Lemma alr_transform_run (st : store) (df : ref) (d : DataFrame) (idx : Z)
      (keep : bool) (den : string) (names : list string) (sel : DataFrame) (s : Series) :
  nth_error st df = Some (ODataFrame d) ->
  isnull_any d = false ->
  ((- n_columns d <=? idx)%Z && (idx <? n_columns d)%Z) = true ->
  alr_run d idx keep den names sel s ->
  alr_transform df idx keep st
  = (Ok (length st + 4),
     st ++ [OList names; ODataFrame sel; OSeries s; ODataFrame (div_axis0 sel s);
            ODataFrame (np_log (div_axis0 sel s))]).
Proof.
  intros Hd Hnull Hidx Hrun. unfold alr_transform.
  step run_beartype_DataFrame.
  unfold check_compositional. rewrite bind_assoc.
  step run_isnull_any. rewrite Hnull.
  erewrite bind_run by (eapply alr_transform_body_run; eassumption).
  erewrite bind_run by (eapply run_beartype_DataFrame; lookup).
  reflexivity.
Qed.

(** A frame with a null is rejected, and the store is as it was. *)
Lemma alr_transform_null (st : store) (df : ref) (d : DataFrame) (idx : Z) (keep : bool) :
  nth_error st df = Some (ODataFrame d) ->
  isnull_any d = true ->
  alr_transform df idx keep st = (Raise InvalidCompositionException, st).
Proof.
  intros Hd Hnull. unfold alr_transform.
  step run_beartype_DataFrame.
  unfold check_compositional. rewrite bind_assoc.
  step run_isnull_any. rewrite Hnull. reflexivity.
Qed.

(** An index out of bounds is rejected, after the list of columns was made. *)
Lemma alr_transform_out_of_bounds (st : store) (df : ref) (d : DataFrame) (idx : Z)
      (keep : bool) :
  nth_error st df = Some (ODataFrame d) ->
  isnull_any d = false ->
  ((- n_columns d <=? idx)%Z && (idx <? n_columns d)%Z) = false ->
  alr_transform df idx keep st
  = (Raise InvalidColumnIndexException, st ++ [OList (columns d)]).
Proof.
  intros Hd Hnull Hidx. unfold alr_transform.
  step run_beartype_DataFrame.
  unfold check_compositional. rewrite bind_assoc.
  step run_isnull_any. rewrite Hnull.
  unfold alr_transform_body. rewrite bind_assoc.
  step run_isnull_any. rewrite Hnull. rewrite bind_assoc.
  step run_list_of_columns. rewrite bind_assoc.
  step run_check_column_index. rewrite Hidx. reflexivity.
Qed.

(** A reference that is not a frame is rejected by beartype. *)
Lemma alr_transform_not_a_frame (st : store) (df : ref) (idx : Z) (keep : bool) :
  (forall d, nth_error st df <> Some (ODataFrame d)) ->
  alr_transform df idx keep st = (Raise BeartypeCallHintViolation, st).
Proof.
  intros H. unfold alr_transform, beartype_DataFrame, bind, read_frame.
  destruct (nth_error st df) as [[d| |]|]; try reflexivity.
  now destruct (H d).
Qed.

(** ** float64 arithmetic *)

Lemma Rltb_true (a b : R) : (a < b)%R -> Rltb a b = true.
Proof. intros H. unfold Rltb. destruct (Rlt_dec a b); tauto. Qed.

Lemma Rltb_false (a b : R) : (~ a < b)%R -> Rltb a b = false.
Proof. intros H. unfold Rltb. destruct (Rlt_dec a b); tauto. Qed.

Lemma Reqb_true (a : R) : Reqb a a = true.
Proof. unfold Reqb. destruct (Req_dec_T a a); tauto. Qed.

Lemma Reqb_false (a b : R) : a <> b -> Reqb a b = false.
Proof. intros H. unfold Reqb. destruct (Req_dec_T a b); tauto. Qed.

Lemma truediv_Fin (a b : R) : b <> 0%R -> truediv (Fin a) (Fin b) = Fin (a / b).
Proof. intros H. simpl. now rewrite Reqb_false. Qed.

Lemma log_Fin (r : R) : (0 < r)%R -> log (Fin r) = Fin (ln r).
Proof.
  intros H. simpl. rewrite Rltb_false by lra. now rewrite Reqb_false by lra.
Qed.

Lemma log_zero : log (Fin 0) = NegInf.
Proof. simpl. rewrite Rltb_false by lra. now rewrite Reqb_true. Qed.

Lemma truediv_zero_zero : truediv (Fin 0) (Fin 0) = NaN.
Proof. simpl. now rewrite Reqb_true. Qed.

(** A strictly positive number divided by itself, then logged, is zero. *)
Lemma log_truediv_self (r : R) : (0 < r)%R -> log (truediv (Fin r) (Fin r)) = Fin 0.
Proof.
  intros H. rewrite truediv_Fin by lra.
  replace (r / r)%R with 1%R by (field; lra).
  rewrite log_Fin by lra. now rewrite ln_1.
Qed.

Lemma isnull_any_true (d : DataFrame) : has_null d -> isnull_any d = true.
Proof.
  intros [c [Hc Hx]]. unfold isnull_any. apply existsb_exists.
  exists c. split; auto. apply existsb_exists. exists NaN. auto.
Qed.

Lemma strictly_positive_no_null (d : DataFrame) :
  strictly_positive d -> isnull_any d = false.
Proof.
  intros H. destruct (isnull_any d) eqn:E; auto. exfalso.
  unfold isnull_any in E. apply existsb_exists in E. destruct E as [c [Hc E]].
  apply existsb_exists in E. destruct E as [x [Hx E]].
  unfold strictly_positive in H. rewrite Forall_forall in H.
  specialize (H c Hc). rewrite Forall_forall in H.
  destruct (H x Hx) as [r [-> _]]. discriminate.
Qed.

(* ================================================================== *)
(** * The properties of the specification *)

(** ** C1: the sample table *)

(** C1.  On the sample table (columns a, b, c, d; rows 65, 12, 18, 5 and
    63, 16, 15, 6) [alr_transform], called with its defaults (index -1,
    which selects column d, and keep_redundant_column = False), returns a
    table with columns a, b, c, cells log(65/5), log(12/5), log(18/5) in
    the first row and log(63/6), log(16/6), log(15/6) in the second, over
    the row index of the input. *)
Theorem alr_transform_sample (st : store) (df : ref) :
  nth_error st df = Some (ODataFrame SAMPLE_DATAFRAME) ->
  returns_frame (alr_transform df default_idx default_keep_redundant_column)
                st SAMPLE_ALR
  /\ df_index SAMPLE_ALR = df_index SAMPLE_DATAFRAME.
Proof.
  intros Hd. split; [|reflexivity].
  eexists _, _. split.
  - apply (alr_transform_run st df SAMPLE_DATAFRAME default_idx
             default_keep_redundant_column "d"%string
             ["a"; "b"; "c"]%string
             (mkDataFrame [0; 1]%Z
                [("a", [Fin 65; Fin 63]); ("b", [Fin 12; Fin 16]);
                 ("c", [Fin 18; Fin 15])]%string)
             (mkSeries [0; 1]%Z [Fin 5; Fin 6]) Hd); try reflexivity.
    repeat split; reflexivity.
  - rewrite lookup_new. cbn [nth_error]. do 2 f_equal.
    unfold np_log, div_axis0. cbn [df_data df_index map fst snd zip_with s_values].
    rewrite !truediv_Fin by lra. rewrite !log_Fin by lra. reflexivity.
Qed.

Lemma alr_transform_sample_witness :
  returns_frame (alr_transform 0 default_idx default_keep_redundant_column)
                [ODataFrame SAMPLE_DATAFRAME] SAMPLE_ALR
  /\ df_index SAMPLE_ALR = df_index SAMPLE_DATAFRAME.
Proof.
  apply (alr_transform_sample [ODataFrame SAMPLE_DATAFRAME] 0). reflexivity.
Defined.

(** ** C2: zeros in the columns of the ratio *)

(** C2 (the code at a failing input).  The claim asks that a zero cell in
    the denominator column or in a numerator column makes [alr_transform]
    fail.  On a one-row table with a zero in numerator column a the call
    returns, and the cell of the result is -inf; with zeros in both columns
    it returns a NaN. *)
Theorem alr_transform_zero_cell_returns :
  returns_frame (alr_transform 0 default_idx default_keep_redundant_column)
                [ODataFrame ZERO_NUMERATOR] ZERO_NUMERATOR_ALR
  /\ returns_frame (alr_transform 0 default_idx default_keep_redundant_column)
                   [ODataFrame ZERO_BOTH] ZERO_BOTH_ALR.
Proof.
  split; eexists _, _; split.
  - apply (alr_transform_run [ODataFrame ZERO_NUMERATOR] 0 ZERO_NUMERATOR default_idx
             default_keep_redundant_column "b"%string ["a"]%string
             (mkDataFrame [0]%Z [("a", [Fin 0])]%string)
             (mkSeries [0]%Z [Fin 5])); try reflexivity.
    repeat split; reflexivity.
  - cbn [length Nat.add app nth_error]. do 2 f_equal.
    unfold np_log, div_axis0, ZERO_NUMERATOR_ALR.
    cbn [df_data df_index map fst snd zip_with s_values].
    rewrite truediv_Fin by lra. replace (0 / 5)%R with 0%R by lra.
    now rewrite log_zero.
  - apply (alr_transform_run [ODataFrame ZERO_BOTH] 0 ZERO_BOTH default_idx
             default_keep_redundant_column "b"%string ["a"]%string
             (mkDataFrame [0]%Z [("a", [Fin 0])]%string)
             (mkSeries [0]%Z [Fin 0])); try reflexivity.
    repeat split; reflexivity.
  - cbn [length Nat.add app nth_error]. do 2 f_equal.
    unfold np_log, div_axis0, ZERO_BOTH_ALR.
    cbn [df_data df_index map fst snd zip_with s_values].
    now rewrite truediv_zero_zero.
Qed.

(** ** C3: too few columns *)

(** C3 (the code at a failing input).  The claim asks that a table left
    without numerator columns is rejected with InvalidParameterValue.  On a
    table of one column the call returns the table without columns. *)
Theorem alr_transform_one_column_returns_empty :
  returns_frame (alr_transform 0 default_idx default_keep_redundant_column)
                [ODataFrame ONE_COLUMN] NO_COLUMNS.
Proof.
  eexists _, _; split.
  - apply (alr_transform_run [ODataFrame ONE_COLUMN] 0 ONE_COLUMN default_idx
             default_keep_redundant_column "a"%string []
             (mkDataFrame [0; 1]%Z [])
             (mkSeries [0; 1]%Z [Fin 1; Fin 2])); try reflexivity.
    repeat split; reflexivity.
  - reflexivity.
Qed.

(** ** C4: nulls *)

(** C4.  A table with a null cell makes [alr_transform] raise
    InvalidComposition whatever idx and keep_redundant_column are, and
    before anything is computed: the store is left as it was. *)
Theorem alr_transform_rejects_null (st : store) (df : ref) (d : DataFrame)
        (idx : Z) (keep_redundant_column : bool) :
  nth_error st df = Some (ODataFrame d) ->
  has_null d ->
  alr_transform df idx keep_redundant_column st
  = (Raise InvalidCompositionException, st).
Proof.
  intros Hd Hn. apply (alr_transform_null st df d); auto.
  now apply isnull_any_true.
Qed.

Lemma WITH_NULL_has_null : has_null WITH_NULL.
Proof.
  exists ("a"%string, [Fin 1; NaN]). split; simpl; auto.
Qed.

Lemma alr_transform_rejects_null_witness :
  alr_transform 0 7 true [ODataFrame WITH_NULL]
  = (Raise InvalidCompositionException, [ODataFrame WITH_NULL]).
Proof.
  apply (alr_transform_rejects_null [ODataFrame WITH_NULL] 0 WITH_NULL 7 true).
  - reflexivity.
  - exact WITH_NULL_has_null.
Defined.

(** ** C5: the index of the denominator *)

Lemma raises_not_returns {A : Type} (m : M A) (st st' : store) (a : A) (e : exn) :
  m st = (Ok a, st') -> ~ raises m st e.
Proof. intros H [st'' H']. congruence. Qed.

(** C5.  On a null-free table of n columns, an index outside -n .. n-1
    (n itself, say) makes [alr_transform] raise InvalidColumnIndex, and an
    index inside the range does not. *)
Theorem alr_transform_index_bounds (st : store) (df : ref) (d : DataFrame)
        (idx : Z) (keep_redundant_column : bool) :
  nth_error st df = Some (ODataFrame d) ->
  isnull_any d = false ->
  ((idx < - n_columns d \/ n_columns d <= idx)%Z ->
   raises (alr_transform df idx keep_redundant_column) st InvalidColumnIndexException)
  /\ ((- n_columns d <= idx < n_columns d)%Z ->
      ~ raises (alr_transform df idx keep_redundant_column) st
               InvalidColumnIndexException).
Proof.
  intros Hd Hnull. split; intros Hidx.
  - eexists. apply (alr_transform_out_of_bounds st df d); auto.
    apply andb_false_iff. destruct Hidx as [H|H].
    + left. apply Z.leb_gt. lia.
    + right. apply Z.ltb_ge. lia.
  - assert (((- n_columns d <=? idx)%Z && (idx <? n_columns d)%Z) = true) as Hb.
    { apply andb_true_iff. split; [apply Z.leb_le | apply Z.ltb_lt]; lia. }
    destruct (alr_run_exists d idx keep_redundant_column Hb)
      as (den & names & sel & s & Hrun).
    eapply raises_not_returns.
    apply (alr_transform_run st df d idx keep_redundant_column den names sel s); auto.
Qed.

Lemma alr_transform_index_bounds_witness :
  raises (alr_transform 0 4 false) [ODataFrame SAMPLE_DATAFRAME]
         InvalidColumnIndexException
  /\ ~ raises (alr_transform 0 (-4) false) [ODataFrame SAMPLE_DATAFRAME]
              InvalidColumnIndexException.
Proof.
  split.
  - apply (alr_transform_index_bounds [ODataFrame SAMPLE_DATAFRAME] 0
             SAMPLE_DATAFRAME 4 false eq_refl eq_refl).
    right. unfold n_columns. simpl. lia.
  - apply (alr_transform_index_bounds [ODataFrame SAMPLE_DATAFRAME] 0
             SAMPLE_DATAFRAME (-4) false eq_refl eq_refl).
    unfold n_columns. simpl. lia.
Defined.

(** ** C9: the two helpers *)

(** C9.  [_alr_transform_old] and [_alr_transform] agree on every frame,
    column sequence and denominator name: same result, same store. *)
Theorem alr_transform_old_eq (df columns : ref) (denominator_column : string)
        (st : store) :
  _alr_transform_old df columns denominator_column st
  = _alr_transform df columns denominator_column st.
Proof. reflexivity. Qed.

(** ** C6, C10: the columns of the result *)

Lemma columns_np_log (d : DataFrame) : columns (np_log d) = columns d.
Proof. unfold columns, np_log. simpl. rewrite map_map. reflexivity. Qed.

Lemma columns_div_axis0 (d : DataFrame) (s : Series) :
  columns (div_axis0 d s) = columns d.
Proof. unfold columns, div_axis0. simpl. rewrite map_map. reflexivity. Qed.

Lemma getitem_list_columns (d sel : DataFrame) (names : list string) :
  NoDup (columns d) -> getitem_list d names = Some sel -> columns sel = names.
Proof.
  unfold getitem_list. intros ND H.
  destruct (take_labels (df_data d) names) as [data|] eqn:E; [|discriminate].
  inversion H; subst. apply (take_labels_columns _ _ _ ND E).
Qed.

Lemma getitem_list_all (d : DataFrame) :
  NoDup (columns d) ->
  getitem_list d (columns d) = Some (mkDataFrame (df_index d) (df_data d)).
Proof.
  intros ND. unfold getitem_list, columns. now rewrite take_labels_all.
Qed.

Lemma filter_has_label_map (name : string) (g : list float64 -> list float64)
      (data : list (string * list float64)) :
  filter (has_label name) (map (fun c => (fst c, g (snd c))) data)
  = map (fun c => (fst c, g (snd c))) (filter (has_label name) data).
Proof.
  induction data as [|c data IH]; cbn [filter map]; auto.
  change (has_label name (fst c, g (snd c))) with (has_label name c).
  destruct (has_label name c); cbn [map]; now rewrite IH.
Qed.

Lemma log_ratio_self (xs : list float64) :
  Forall (fun x => exists r, x = Fin r /\ (0 < r)%R) xs ->
  map log (zip_with truediv xs xs) = repeat (Fin 0) (length xs).
Proof.
  induction 1 as [|x xs [r [-> Hr]] _ IH]; simpl; auto.
  rewrite <- IH. f_equal. now apply log_truediv_self.
Qed.

Lemma in_bounds_bool (d : DataFrame) (idx : Z) :
  (- n_columns d <= idx < n_columns d)%Z ->
  ((- n_columns d <=? idx)%Z && (idx <? n_columns d)%Z) = true.
Proof.
  intros H. apply andb_true_iff. split; [apply Z.leb_le | apply Z.ltb_lt]; lia.
Qed.

(** C6.  On a valid table and a valid denominator index: with
    keep_redundant_column = False the name of the denominator column is
    not among the columns of the result; with True it is, and the values
    under it are all zero, one per row of the input column. *)
Theorem alr_transform_redundant_column (st : store) (df : ref) (d : DataFrame) (idx : Z) :
  nth_error st df = Some (ODataFrame d) ->
  valid_composition d ->
  (- n_columns d <= idx < n_columns d)%Z ->
  exists den,
    index_getitem (columns d) idx = Some den
    /\ (exists out,
          returns_frame (alr_transform df idx false) st out
          /\ ~ In den (columns out))
    /\ (exists out col,
          returns_frame (alr_transform df idx true) st out
          /\ In den (columns out)
          /\ column_values d den = [col]
          /\ column_values out den = [repeat (Fin 0) (length col)]).
Proof.
  intros Hd [ND Hpos] Hidx.
  pose proof (strictly_positive_no_null d Hpos) as Hnull.
  pose proof (in_bounds_bool d idx Hidx) as Hb.
  destruct (alr_run_exists d idx false Hb)
    as (den & names & sel & s & Hrun).
  destruct (alr_run_exists d idx true Hb)
    as (den' & names' & sel' & s' & Hrun').
  pose proof (alr_transform_run st df d idx false den names sel s Hd Hnull Hb Hrun) as R.
  pose proof (alr_transform_run st df d idx true den' names' sel' s' Hd Hnull Hb Hrun') as R'.
  destruct Hrun as (Hden & Hin & Hnames & Hsel & Hs).
  destruct Hrun' as (Hden' & _ & Hnames' & Hsel' & Hs').
  cbv iota in Hnames, Hnames'.
  assert (den' = den) by congruence. subst den' names'.
  apply contains_In in Hin.
  exists den. split; [assumption|]. split.
  - eexists. split.
    + eexists _, _. split; [exact R|]. rewrite lookup_new. reflexivity.
    + rewrite columns_np_log, columns_div_axis0, (getitem_list_columns d sel names ND Hsel).
      destruct (remove_In den (columns d) Hin) as [r [Hr [_ Hnot]]].
      assert (r = names) by congruence. subst r. auto.
  - rewrite getitem_list_all in Hsel' by assumption. inversion Hsel'; subst sel'.
    destruct (filter_has_label_unique den (df_data d) ND Hin) as [c [Hf [Hc Hcin]]].
    assert (s_values s' = snd c) as Hsv.
    { unfold getitem in Hs'.
      destruct (find (has_label den) (df_data d)) as [c'|] eqn:F; [|discriminate].
      inversion Hs'; subst s'. simpl.
      apply find_some in F. destruct F as [Hc'in Hl].
      assert (In c' (filter (has_label den) (df_data d))) as Hf'
        by (apply filter_In; auto).
      rewrite Hf in Hf'. destruct Hf' as [->|[]]. reflexivity. }
    eexists _, (snd c). split; [|split; [|split]].
    + eexists _, _. split; [exact R'|]. rewrite lookup_new. reflexivity.
    + now rewrite columns_np_log, columns_div_axis0.
    + unfold column_values. now rewrite Hf.
    + unfold column_values, np_log, div_axis0. simpl. rewrite map_map. simpl.
      rewrite (filter_has_label_map den
                 (fun col => map log (zip_with truediv col (s_values s')))).
      rewrite Hf, Hsv. simpl. f_equal. apply log_ratio_self.
      unfold strictly_positive in Hpos. rewrite Forall_forall in Hpos. auto.
Qed.

Lemma SAMPLE_DATAFRAME_valid : valid_composition SAMPLE_DATAFRAME.
Proof.
  split.
  - unfold columns. simpl.
    repeat (constructor; [simpl; intuition discriminate|]). constructor.
  - unfold strictly_positive. simpl.
    repeat (constructor; [repeat (constructor; [eexists; split; [reflexivity|lra]|]);
                          constructor|]).
    constructor.
Qed.

Lemma alr_transform_redundant_column_witness :
  exists den,
    index_getitem (columns SAMPLE_DATAFRAME) (-1) = Some den
    /\ (exists out,
          returns_frame (alr_transform 0 (-1) false) [ODataFrame SAMPLE_DATAFRAME] out
          /\ ~ In den (columns out))
    /\ (exists out col,
          returns_frame (alr_transform 0 (-1) true) [ODataFrame SAMPLE_DATAFRAME] out
          /\ In den (columns out)
          /\ column_values SAMPLE_DATAFRAME den = [col]
          /\ column_values out den = [repeat (Fin 0) (length col)]).
Proof.
  apply (alr_transform_redundant_column [ODataFrame SAMPLE_DATAFRAME] 0
           SAMPLE_DATAFRAME (-1) eq_refl SAMPLE_DATAFRAME_valid).
  unfold n_columns. simpl. lia.
Defined.

Lemma alr_transform_body_no_append_run (st : store) (df : ref) (d : DataFrame) (idx : Z)
      (keep : bool) (den : string) (names : list string) (sel : DataFrame) (s : Series) :
  nth_error st df = Some (ODataFrame d) ->
  isnull_any d = false ->
  ((- n_columns d <=? idx)%Z && (idx <? n_columns d)%Z) = true ->
  alr_run d idx keep den names sel s ->
  alr_transform_body_no_append idx keep df st
  = (Ok (length st + 4),
     st ++ [OList names; ODataFrame sel; OSeries s; ODataFrame (div_axis0 sel s);
            ODataFrame (np_log (div_axis0 sel s))]).
Proof.
  intros Hd Hnull Hidx (Hden & Hin & Hnames & Hsel & Hs).
  unfold alr_transform_body_no_append.
  step run_isnull_any. rewrite Hnull.
  step run_list_of_columns.
  step run_check_column_index. rewrite Hidx. cbn [negb].
  step run_columns_getitem.
  destruct keep; cbn [negb].
  - subst names. erewrite bind_run by reflexivity.
    erewrite _alr_transform_run; try lookup; try eassumption.
    rewrite length_app, <- app_assoc. cbn [length app].
    now rewrite <- Nat.add_assoc.
  - rewrite bind_assoc. step run_list_contains. rewrite Hin.
    step run_list_remove. rewrite update_end.
    erewrite _alr_transform_run; try lookup; try eassumption.
    rewrite length_app, <- app_assoc. cbn [length app].
    now rewrite <- Nat.add_assoc.
Qed.

(** C10 (as amended).  On a null-free table whose column names are
    distinct and a valid denominator index, [alr_transform] with
    keep_redundant_column = True returns a table whose column names are
    those of the input, in the same order.  The denominator is one of the
    table's own columns, so the test guarding the append finds it in the
    list and the branch is not taken: the body computes what it computes
    with that branch left out. *)
Theorem alr_transform_keep_columns (st : store) (df : ref) (d : DataFrame) (idx : Z) :
  nth_error st df = Some (ODataFrame d) ->
  isnull_any d = false ->
  NoDup (columns d) ->
  (- n_columns d <= idx < n_columns d)%Z ->
  (exists out,
     returns_frame (alr_transform df idx true) st out
     /\ columns out = columns d)
  /\ (exists den,
        index_getitem (columns d) idx = Some den
        /\ PyList.contains den (columns d) = true)
  /\ alr_transform_body idx true df st = alr_transform_body_no_append idx true df st.
Proof.
  intros Hd Hnull ND Hidx.
  pose proof (in_bounds_bool d idx Hidx) as Hb.
  destruct (alr_run_exists d idx true Hb) as (den & names & sel & s & Hrun).
  pose proof (alr_transform_run st df d idx true den names sel s Hd Hnull Hb Hrun) as R.
  pose proof (alr_transform_body_run st df d idx true den names sel s Hd Hnull Hb Hrun)
    as B.
  pose proof (alr_transform_body_no_append_run st df d idx true den names sel s
                Hd Hnull Hb Hrun) as B'.
  destruct Hrun as (Hden & Hin & Hnames & Hsel & Hs). cbv iota in Hnames. subst names.
  split; [|split].
  - eexists. split.
    + eexists _, _. split; [exact R|]. rewrite lookup_new. reflexivity.
    + rewrite columns_np_log, columns_div_axis0.
      apply (getitem_list_columns d sel (columns d) ND Hsel).
  - exists den. auto.
  - congruence.
Qed.

Lemma alr_transform_keep_columns_witness :
  (exists out,
     returns_frame (alr_transform 0 1 true) [ODataFrame SAMPLE_DATAFRAME] out
     /\ columns out = columns SAMPLE_DATAFRAME)
  /\ (exists den,
        index_getitem (columns SAMPLE_DATAFRAME) 1 = Some den
        /\ PyList.contains den (columns SAMPLE_DATAFRAME) = true)
  /\ alr_transform_body 1 true 0 [ODataFrame SAMPLE_DATAFRAME]
     = alr_transform_body_no_append 1 true 0 [ODataFrame SAMPLE_DATAFRAME].
Proof.
  apply (alr_transform_keep_columns [ODataFrame SAMPLE_DATAFRAME] 0
           SAMPLE_DATAFRAME 1 eq_refl eq_refl).
  - apply SAMPLE_DATAFRAME_valid.
  - unfold n_columns. simpl. lia.
Defined.

(** C10 as first stated fails: on a null-free table that carries one
    name on two columns, the selection by label picks both columns for
    either occurrence of the name, and the table returned has more columns
    than the input. *)
Lemma alr_transform_keep_columns_counterexample :
  isnull_any REPEATED_LABELS = false
  /\ (- n_columns REPEATED_LABELS <= 0 < n_columns REPEATED_LABELS)%Z
  /\ (exists out,
        returns_frame (alr_transform 0 0 true) [ODataFrame REPEATED_LABELS] out
        /\ columns out <> columns REPEATED_LABELS)
  /\ ~ (exists out,
          returns_frame (alr_transform 0 0 true) [ODataFrame REPEATED_LABELS] out
          /\ columns out = columns REPEATED_LABELS).
Proof.
  pose (sel := mkDataFrame [0%Z]
                 [("a", [Fin 1]); ("a", [Fin 2]);
                  ("a", [Fin 1]); ("a", [Fin 2])]%string).
  pose (s := mkSeries [0%Z] [Fin 1]).
  assert (alr_transform 0 0 true [ODataFrame REPEATED_LABELS]
          = (Ok 5,
             [ODataFrame REPEATED_LABELS; OList ["a"; "a"]%string; ODataFrame sel;
              OSeries s; ODataFrame (div_axis0 sel s);
              ODataFrame (np_log (div_axis0 sel s))])) as E.
  { apply (alr_transform_run [ODataFrame REPEATED_LABELS] 0 REPEATED_LABELS 0 true
             "a"%string ["a"; "a"]%string sel s); try reflexivity.
    repeat split; reflexivity. }
  assert (columns (np_log (div_axis0 sel s)) <> columns REPEATED_LABELS) as Hne.
  { rewrite columns_np_log, columns_div_axis0. unfold columns. simpl. discriminate. }
  split; [reflexivity|]. split; [unfold n_columns; simpl; lia|]. split.
  - eexists. split; [|exact Hne]. eexists _, _. split; [exact E|]. reflexivity.
  - intros [out [[r [st' [H Hout]]] Hcols]].
    rewrite E in H. inversion H; subst r st'. simpl in Hout.
    inversion Hout; subst out. now apply Hne.
Qed.

(** ** C7: the caller's objects *)

(** C7.  Whenever [alr_transform] returns, every object the caller had in
    the store is as it was (the input table in particular), and the result
    is a table at a reference that did not exist before the call: a new
    object, not the input. *)
Theorem alr_transform_frame (st st' : store) (df r : ref) (idx : Z)
        (keep_redundant_column : bool) :
  alr_transform df idx keep_redundant_column st = (Ok r, st') ->
  (forall p o, nth_error st p = Some o -> nth_error st' p = Some o)
  /\ nth_error st' df = nth_error st df
  /\ r <> df
  /\ nth_error st r = None
  /\ exists out, nth_error st' r = Some (ODataFrame out).
Proof.
  intros H.
  destruct (nth_error st df) as [o|] eqn:E.
  2:{ rewrite alr_transform_not_a_frame in H by (intros d; congruence). discriminate. }
  destruct o as [d|s|l].
  2,3: rewrite alr_transform_not_a_frame in H by (intros d; congruence); discriminate.
  destruct (isnull_any d) eqn:Hnull.
  { rewrite (alr_transform_null st df d) in H by assumption. discriminate. }
  destruct ((- n_columns d <=? idx)%Z && (idx <? n_columns d)%Z) eqn:Hb.
  2:{ rewrite (alr_transform_out_of_bounds st df d) in H by assumption. discriminate. }
  destruct (alr_run_exists d idx keep_redundant_column Hb)
    as (den & names & sel & s & Hrun).
  rewrite (alr_transform_run st df d idx keep_redundant_column den names sel s
             E Hnull Hb Hrun) in H.
  inversion H; subst r st'. clear H.
  assert (df < length st) as Hlt by (apply nth_error_Some; congruence).
  repeat split.
  - intros p o Hp. now apply lookup_old.
  - now apply lookup_old.
  - lia.
  - apply nth_error_None. lia.
  - eexists. rewrite lookup_new. reflexivity.
Qed.

Lemma alr_transform_frame_witness :
  (forall p o, nth_error [ODataFrame ONE_COLUMN] p = Some o ->
               nth_error [ODataFrame ONE_COLUMN; OList [];
                          ODataFrame NO_COLUMNS;
                          OSeries (mkSeries [0; 1]%Z [Fin 1; Fin 2]);
                          ODataFrame NO_COLUMNS; ODataFrame NO_COLUMNS] p = Some o)
  /\ nth_error [ODataFrame ONE_COLUMN; OList [];
                ODataFrame NO_COLUMNS;
                OSeries (mkSeries [0; 1]%Z [Fin 1; Fin 2]);
                ODataFrame NO_COLUMNS; ODataFrame NO_COLUMNS] 0
     = nth_error [ODataFrame ONE_COLUMN] 0
  /\ 5 <> 0
  /\ nth_error [ODataFrame ONE_COLUMN] 5 = None
  /\ exists out,
       nth_error [ODataFrame ONE_COLUMN; OList [];
                  ODataFrame NO_COLUMNS;
                  OSeries (mkSeries [0; 1]%Z [Fin 1; Fin 2]);
                  ODataFrame NO_COLUMNS; ODataFrame NO_COLUMNS] 5
       = Some (ODataFrame out).
Proof.
  apply (alr_transform_frame [ODataFrame ONE_COLUMN] _ 0 5 (-1) false).
  reflexivity.
Defined.

(** ** C8: the centered log-ratio of a constant row *)

Lemma all_positive_no_null (d : DataFrame) : all_positive d = true -> isnull_any d = false.
Proof.
  intros H. destruct (isnull_any d) eqn:E; auto. exfalso.
  unfold isnull_any in E. apply existsb_exists in E. destruct E as [c [Hc E]].
  apply existsb_exists in E. destruct E as [x [Hx E]].
  unfold all_positive in H. rewrite forallb_forall in H.
  specialize (H c Hc). rewrite forallb_forall in H. specialize (H x Hx).
  destruct x; discriminate.
Qed.

Lemma clr_transform_run (st : store) (df : ref) (d : DataFrame) :
  nth_error st df = Some (ODataFrame d) ->
  all_positive d = true ->
  clr_transform df st
  = (Ok (length st + 2),
     st ++ [OSeries (row_geometric_means d);
            ODataFrame (div_axis0 d (row_geometric_means d));
            ODataFrame (np_log (div_axis0 d (row_geometric_means d)))]).
Proof.
  intros Hd Hpos. unfold clr_transform.
  step run_beartype_DataFrame.
  unfold check_compositional.
  step run_isnull_any. rewrite (all_positive_no_null d Hpos).
  step run_read_frame. rewrite Hpos. cbn [negb].
  erewrite bind_run by apply alloc_run.
  step run_div.
  erewrite run_np_log by lookup. apply alloc_ext.
Qed.

Lemma clr_transform_rejects_non_positive (st : store) (df : ref) (d : DataFrame) :
  nth_error st df = Some (ODataFrame d) ->
  isnull_any d = false ->
  all_positive d = false ->
  clr_transform df st = (Raise NumericValueSignException, st).
Proof.
  intros Hd Hnull Hpos. unfold clr_transform.
  step run_beartype_DataFrame.
  unfold check_compositional.
  step run_isnull_any. rewrite Hnull.
  step run_read_frame. rewrite Hpos. reflexivity.
Qed.

Lemma fold_mul_repeat (v : R) (n : nat) :
  fold_right mul (Fin 1) (repeat (Fin v) n) = Fin (v ^ n).
Proof.
  induction n as [|n IH]; simpl; auto. now rewrite IH.
Qed.

(** The geometric mean of n copies of v is v. *)
Lemma geometric_mean_constant (n : nat) (v : R) :
  (0 < v)%R -> 0 < n -> geometric_mean (repeat (Fin v) n) = Fin v.
Proof.
  intros Hv Hn. unfold geometric_mean. rewrite fold_mul_repeat, repeat_length.
  pose proof (pow_lt v n Hv) as Hp.
  unfold root. rewrite Rltb_false by lra. rewrite Reqb_false by lra.
  f_equal. unfold Rpower. rewrite ln_pow by assumption.
  replace (/ INR n * (INR n * ln v))%R with (ln v).
  - now apply exp_ln.
  - field. apply not_0_INR. lia.
Qed.

Lemma nth_error_zip_with {A B C : Type} (f : A -> B -> C) (xs : list A) (ys : list B)
      (i : nat) (x : A) (y : B) :
  nth_error xs i = Some x -> nth_error ys i = Some y ->
  nth_error (zip_with f xs ys) i = Some (f x y).
Proof.
  revert ys i. induction xs as [|x0 xs IH]; intros [|y0 ys] [|i]; simpl;
    try discriminate; intros Hx Hy.
  - congruence.
  - now apply IH.
Qed.

Lemma row_constant (d : DataFrame) (i : nat) (x : float64) :
  (forall c, In c (df_data d) -> nth_error (snd c) i = Some x) ->
  row d i = repeat x (length (df_data d)).
Proof.
  unfold row. induction (df_data d) as [|c data IH]; simpl; intros H; auto.
  f_equal.
  - apply nth_error_nth. auto.
  - apply IH. auto.
Qed.

Lemma row_geometric_means_nth (d : DataFrame) (i : nat) :
  i < length (df_index d) ->
  nth_error (s_values (row_geometric_means d)) i = Some (geometric_mean (row d i)).
Proof.
  intros Hi. unfold row_geometric_means. simpl.
  rewrite nth_error_map, nth_error_seq.
  apply Nat.ltb_lt in Hi. now rewrite Hi.
Qed.

(** C8 (as amended).  On a table whose cells are all strictly positive,
    [clr_transform] returns a table of the same columns and rows, and a row
    whose cells all hold one finite value is mapped to a row of zeros.  In
    particular the 4x4 table of ones is mapped to the 4x4 table of zeros. *)
Theorem clr_transform_constant_row (st : store) (df : ref) :
  (forall (d : DataFrame) (i : nat) (v : R),
     nth_error st df = Some (ODataFrame d) ->
     all_positive d = true ->
     i < length (df_index d) ->
     (0 < v)%R ->
     (forall c, In c (df_data d) -> nth_error (snd c) i = Some (Fin v)) ->
     exists out,
       returns_frame (clr_transform df) st out
       /\ columns out = columns d
       /\ df_index out = df_index d
       /\ forall c, In c (df_data out) -> nth_error (snd c) i = Some (Fin 0))
  /\ (nth_error st df = Some (ODataFrame ONES_DATAFRAME_4x4) ->
      returns_frame (clr_transform df) st ZEROS_DATAFRAME_4x4).
Proof.
  split.
  - intros d i v Hd Hpos Hi Hv Hrow.
    eexists. split; [|split; [|split]].
    + eexists _, _. split; [apply (clr_transform_run st df d Hd Hpos)|].
      rewrite lookup_new. reflexivity.
    + now rewrite columns_np_log, columns_div_axis0.
    + reflexivity.
    + intros c' Hc'. unfold np_log, div_axis0 in Hc'. simpl in Hc'.
      rewrite map_map in Hc'. apply in_map_iff in Hc'.
      destruct Hc' as [c [<- Hc]]. simpl.
      rewrite nth_error_map.
      erewrite nth_error_zip_with; [| apply Hrow; exact Hc
                                     | apply row_geometric_means_nth; exact Hi].
      rewrite (row_constant d i (Fin v) Hrow).
      rewrite geometric_mean_constant; auto.
      * cbn [option_map]. now rewrite log_truediv_self.
      * destruct (df_data d); [destruct Hc | simpl; lia].
  - intros Hd. eexists _, _.
    split; [apply (clr_transform_run st df ONES_DATAFRAME_4x4 Hd)|].
    + unfold all_positive. simpl. rewrite !Rltb_true by lra. reflexivity.
    + rewrite lookup_new. cbn [nth_error]. do 2 f_equal.
      assert (geometric_mean [Fin 1; Fin 1; Fin 1; Fin 1] = Fin 1) as G
          by (apply (geometric_mean_constant 4 1); [lra | lia]).
      unfold np_log, div_axis0, row_geometric_means, row, ZEROS_DATAFRAME_4x4.
      cbn [ONES_DATAFRAME_4x4 df_data df_index map fst snd zip_with s_values
           length seq nth].
      rewrite !G. rewrite !log_truediv_self by lra. reflexivity.
Qed.

Lemma ONES_DATAFRAME_4x4_positive : all_positive ONES_DATAFRAME_4x4 = true.
Proof. unfold all_positive. simpl. rewrite !Rltb_true by lra. reflexivity. Qed.

Lemma clr_transform_constant_row_witness :
  (exists out,
     returns_frame (clr_transform 0) [ODataFrame ONES_DATAFRAME_4x4] out
     /\ columns out = columns ONES_DATAFRAME_4x4
     /\ df_index out = df_index ONES_DATAFRAME_4x4
     /\ forall c, In c (df_data out) -> nth_error (snd c) 2 = Some (Fin 0))
  /\ returns_frame (clr_transform 0) [ODataFrame ONES_DATAFRAME_4x4]
                   ZEROS_DATAFRAME_4x4.
Proof.
  destruct (clr_transform_constant_row [ODataFrame ONES_DATAFRAME_4x4] 0) as [G P].
  split.
  - apply (G ONES_DATAFRAME_4x4 2 1%R eq_refl ONES_DATAFRAME_4x4_positive).
    + simpl. lia.
    + lra.
    + intros c Hc. simpl in Hc.
      destruct Hc as [<-|[<-|[<-|[<-|[]]]]]; reflexivity.
  - apply P. reflexivity.
Defined.

(** C8 as first stated fails: the first row of this table holds the value
    2 in every cell, yet the zero in the second row makes [clr_transform]
    raise NumericValueSign, so no table is returned. *)
Lemma clr_transform_constant_row_counterexample :
  (forall c, In c (df_data CONSTANT_ROW_AND_ZERO) -> nth_error (snd c) 0 = Some (Fin 2))
  /\ (0 < 2)%R
  /\ clr_transform 0 [ODataFrame CONSTANT_ROW_AND_ZERO]
     = (Raise NumericValueSignException, [ODataFrame CONSTANT_ROW_AND_ZERO])
  /\ ~ exists out,
         returns_frame (clr_transform 0) [ODataFrame CONSTANT_ROW_AND_ZERO] out.
Proof.
  assert (clr_transform 0 [ODataFrame CONSTANT_ROW_AND_ZERO]
          = (Raise NumericValueSignException, [ODataFrame CONSTANT_ROW_AND_ZERO])) as E.
  { apply (clr_transform_rejects_non_positive _ 0 CONSTANT_ROW_AND_ZERO);
      try reflexivity.
    unfold all_positive. simpl. rewrite (Rltb_false 0 0) by lra.
    now rewrite andb_false_r. }
  repeat split.
  - intros c Hc. simpl in Hc. destruct Hc as [<-|[<-|[]]]; reflexivity.
  - lra.
  - exact E.
  - intros [out [r [st' [H _]]]]. congruence.
Qed.

(* ================================================================== *)
(** * Further properties of alr.py *)

Import Frames ClrTest.

(** ** Every way a call can end *)

(** X1.  The exceptions of [alr_transform]: a reference to something that
    is not a frame is refused by beartype, a frame with a null raises
    InvalidComposition, and on a null-free frame an index out of bounds
    raises InvalidColumnIndex.  On a null-free frame with an index in
    bounds no KeyError, IndexError or ValueError leaves the function: the
    label look-ups, [df.columns[idx]] and the guarded [columns.remove]
    cannot fail. *)
Theorem alr_transform_outcomes (st : store) (df : ref) (idx : Z)
        (keep_redundant_column : bool) :
  match nth_error st df with
  | Some (ODataFrame d) =>
      if isnull_any d then
        raises (alr_transform df idx keep_redundant_column) st
               InvalidCompositionException
      else if ((- n_columns d <=? idx)%Z && (idx <? n_columns d)%Z) then
        ~ raises (alr_transform df idx keep_redundant_column) st KeyError
        /\ ~ raises (alr_transform df idx keep_redundant_column) st IndexError
        /\ ~ raises (alr_transform df idx keep_redundant_column) st ValueError
      else
        raises (alr_transform df idx keep_redundant_column) st
               InvalidColumnIndexException
  | _ => raises (alr_transform df idx keep_redundant_column) st
                BeartypeCallHintViolation
  end.
Proof.
  destruct (nth_error st df) as [o|] eqn:E.
  2:{ eexists. apply alr_transform_not_a_frame. intros d. congruence. }
  destruct o as [d|s|l].
  2,3: eexists; apply alr_transform_not_a_frame; intros d; congruence.
  destruct (isnull_any d) eqn:Hnull.
  { eexists. now apply (alr_transform_null st df d). }
  destruct ((- n_columns d <=? idx)%Z && (idx <? n_columns d)%Z) eqn:Hb.
  2:{ eexists. now apply (alr_transform_out_of_bounds st df d). }
  destruct (alr_run_exists d idx keep_redundant_column Hb)
    as (den & names & sel & s & Hrun).
  pose proof (alr_transform_run st df d idx keep_redundant_column den names sel s
                E Hnull Hb Hrun) as R.
  repeat split; apply (raises_not_returns _ _ _ _ _ R).
Qed.

(** ** The value of the result *)

Lemma NoDup_fst_inj (data : list (string * list float64)) (c c' : string * list float64) :
  NoDup (map fst data) -> In c data -> In c' data -> fst c = fst c' -> c = c'.
Proof.
  induction data as [|c0 data IH]; simpl; [tauto|].
  intros ND Hc Hc' E. inversion ND as [|? ? Hn ND']; subst.
  destruct Hc as [->|Hc], Hc' as [->|Hc']; auto.
  - exfalso. apply Hn. rewrite E. now apply in_map.
  - exfalso. apply Hn. rewrite <- E. now apply in_map.
Qed.

Lemma take_labels_sub (data sub : list (string * list float64)) :
  NoDup (map fst data) ->
  (forall c, In c sub -> In c data) ->
  take_labels data (map fst sub) = Some sub.
Proof.
  intros ND. induction sub as [|c sub IH]; intros Hsub; auto.
  cbn [map take_labels].
  destruct (filter_has_label_unique (fst c) data ND) as [c' [F [Hc Hin]]].
  { apply in_map. apply Hsub. now left. }
  assert (c' = c) as ->.
  { apply (NoDup_fst_inj data); auto. apply Hsub. now left. }
  rewrite F, IH; auto. intros c0 H0. apply Hsub. now right.
Qed.

Lemma without_label_absent (den : string) (data : list (string * list float64)) :
  ~ In den (map fst data) -> without_label den data = data.
Proof.
  induction data as [|c data IH]; simpl; auto. intros H.
  unfold has_label at 1. destruct (String.eqb (fst c) den) eqn:E.
  - apply String.eqb_eq in E. tauto.
  - simpl. f_equal. apply IH. tauto.
Qed.

Lemma remove_without_label (den : string) (data : list (string * list float64)) :
  NoDup (map fst data) -> In den (map fst data) ->
  PyList.remove den (map fst data) = Some (map fst (without_label den data)).
Proof.
  induction data as [|c data IH]; simpl; [tauto|].
  intros ND H. inversion ND as [|? ? Hn ND']; subst.
  unfold has_label at 1. destruct (String.eqb (fst c) den) eqn:E; simpl.
  - apply String.eqb_eq in E. subst den.
    now rewrite (without_label_absent _ _ Hn).
  - apply String.eqb_neq in E. destruct H as [H|H]; [congruence|].
    now rewrite (IH ND' H).
Qed.

Lemma find_filter {A : Type} (f : A -> bool) (l : list A) :
  find f l = match filter f l with [] => None | x :: _ => Some x end.
Proof.
  induction l as [|x l IH]; simpl; auto. destruct (f x); auto.
Qed.

Lemma index_getitem_bounds (cols : list string) (idx : Z) (name : string) :
  index_getitem cols idx = Some name ->
  ((- Z.of_nat (length cols) <=? idx)%Z && (idx <? Z.of_nat (length cols))%Z) = true
  /\ In name cols.
Proof.
  unfold index_getitem. cbv zeta. intros H.
  destruct (0 <=? idx)%Z eqn:E0.
  - apply Z.leb_le in E0. pose proof (nth_error_In _ _ H) as Hin.
    assert (Z.to_nat idx < length cols) by (apply nth_error_Some; congruence).
    split; auto. apply andb_true_iff.
    split; [apply Z.leb_le | apply Z.ltb_lt]; lia.
  - apply Z.leb_gt in E0.
    destruct (- Z.of_nat (length cols) <=? idx)%Z eqn:E1; [|discriminate].
    split; [|eapply nth_error_In; eauto].
    apply andb_true_iff. split; [reflexivity | apply Z.ltb_lt; lia].
Qed.

(** The whole run on a table with distinct column names, in terms of the
    input alone. *)
Lemma alr_transform_value (st : store) (df : ref) (d : DataFrame) (idx : Z) (keep : bool)
      (den : string) (den_col : list float64) :
  nth_error st df = Some (ODataFrame d) ->
  isnull_any d = false ->
  NoDup (columns d) ->
  index_getitem (columns d) idx = Some den ->
  column_values d den = [den_col] ->
  exists ext,
    alr_transform df idx keep st
    = (Ok (length st + 4),
       st ++ ext ++
       [ODataFrame
          (mkDataFrame (df_index d)
             (log_ratios den_col
                (if keep then df_data d else without_label den (df_data d))))])
    /\ length ext = 4.
Proof.
  intros Hd Hnull ND Hden Hcol.
  destruct (index_getitem_bounds _ _ _ Hden) as [Hb Hin].
  rewrite <- n_columns_length in Hb.
  set (data' := if keep then df_data d else without_label den (df_data d)).
  assert (forall c, In c data' -> In c (df_data d)) as Hsub.
  { subst data'. destruct keep; auto. intros c Hc. unfold without_label in Hc.
    apply filter_In in Hc. tauto. }
  assert (alr_run d idx keep den (map fst data') (mkDataFrame (df_index d) data')
                  (mkSeries (df_index d) den_col)) as Hrun.
  { unfold alr_run. repeat split; auto.
    - now apply contains_In.
    - subst data'. destruct keep; [reflexivity|].
      now apply remove_without_label.
    - unfold getitem_list. now rewrite (take_labels_sub (df_data d) data' ND Hsub).
    - unfold getitem. rewrite find_filter. unfold column_values in Hcol.
      destruct (filter (has_label den) (df_data d)) as [|c [|c' l]];
        simpl in Hcol; try discriminate.
      inversion Hcol; subst. reflexivity. }
  rewrite (alr_transform_run st df d idx keep _ _ _ _ Hd Hnull Hb Hrun).
  eexists [_; _; _; _]. split; [|reflexivity].
  cbn [app]. do 5 f_equal.
  unfold np_log, div_axis0, log_ratios. cbn [df_index df_data s_values].
  now rewrite map_map.
Qed.

(** X2.  On a null-free table with distinct column names, the result of
    [alr_transform] is, over the row labels of the input, one column for
    every column of the input (the denominator's left out unless
    keep_redundant_column is set), in the order of the input and under the
    same name, holding row by row the logarithm of the cell divided by the
    denominator's cell. *)
Theorem alr_transform_cells (st : store) (df : ref) (d : DataFrame) (idx : Z)
        (keep_redundant_column : bool) (den : string) (den_col : list float64) :
  nth_error st df = Some (ODataFrame d) ->
  isnull_any d = false ->
  NoDup (columns d) ->
  index_getitem (columns d) idx = Some den ->
  column_values d den = [den_col] ->
  returns_frame (alr_transform df idx keep_redundant_column) st
    (mkDataFrame (df_index d)
       (log_ratios den_col
          (if keep_redundant_column then df_data d
           else without_label den (df_data d)))).
Proof.
  intros Hd Hnull ND Hden Hcol.
  destruct (alr_transform_value st df d idx keep_redundant_column den den_col
              Hd Hnull ND Hden Hcol) as [ext [E Hext]].
  eexists _, _. split; [exact E|].
  rewrite app_assoc, <- (Nat.add_0_r (length st + 4)).
  replace (length st + 4) with (length (st ++ ext)) by (rewrite length_app; lia).
  now rewrite lookup_new.
Qed.

Lemma alr_transform_cells_witness :
  returns_frame (alr_transform 0 (-3) false) [ODataFrame SAMPLE_DATAFRAME]
    (mkDataFrame (df_index SAMPLE_DATAFRAME)
       (log_ratios [Fin 12; Fin 16]
          (without_label "b" (df_data SAMPLE_DATAFRAME)))).
Proof.
  apply (alr_transform_cells [ODataFrame SAMPLE_DATAFRAME] 0 SAMPLE_DATAFRAME (-3)
           false "b"%string [Fin 12; Fin 16] eq_refl eq_refl).
  - apply SAMPLE_DATAFRAME_valid.
  - reflexivity.
  - reflexivity.
Defined.

Lemma column_values_defined (d : DataFrame) (den : string) :
  NoDup (columns d) -> In den (columns d) ->
  exists c, In c (df_data d) /\ fst c = den /\ column_values d den = [snd c].
Proof.
  intros ND Hin.
  destruct (filter_has_label_unique den (df_data d) ND Hin) as [c [F [Hc Hcin]]].
  exists c. unfold column_values. rewrite F. auto.
Qed.

Lemma in_zip_with {A B C : Type} (f : A -> B -> C) (xs : list A) (ys : list B) (z : C) :
  In z (zip_with f xs ys) -> exists x y, In x xs /\ In y ys /\ z = f x y.
Proof.
  revert ys. induction xs as [|x xs IH]; intros [|y ys]; simpl; try tauto.
  intros [<-|H].
  - exists x, y. auto.
  - destruct (IH ys H) as (x' & y' & Hx & Hy & E). exists x', y'. auto.
Qed.

Lemma log_truediv_finite (a b : R) :
  (0 < a)%R -> (0 < b)%R -> log (truediv (Fin a) (Fin b)) = Fin (ln (a / b)).
Proof.
  intros Ha Hb. rewrite truediv_Fin by lra.
  apply log_Fin. now apply Rdiv_lt_0_compat.
Qed.

(** X3.  On a valid composition (distinct column names, every cell finite
    and strictly positive) the call returns and no cell of the result is a
    NaN: the table that comes out passes the null test the function applies
    to the table that goes in. *)
Theorem alr_transform_no_nan (st : store) (df : ref) (d : DataFrame) (idx : Z)
        (keep_redundant_column : bool) :
  nth_error st df = Some (ODataFrame d) ->
  valid_composition d ->
  (- n_columns d <= idx < n_columns d)%Z ->
  exists out,
    returns_frame (alr_transform df idx keep_redundant_column) st out
    /\ isnull_any out = false.
Proof.
  intros Hd [ND Hpos] Hidx.
  pose proof (strictly_positive_no_null d Hpos) as Hnull.
  pose proof (in_bounds_bool d idx Hidx) as Hb. rewrite n_columns_length in Hb.
  destruct (index_getitem_in_bounds _ _ Hb) as [den [Hden Hin]].
  destruct (column_values_defined d den ND Hin) as [cd [Hcd [_ Hcol]]].
  destruct (alr_transform_value st df d idx keep_redundant_column den (snd cd)
              Hd Hnull ND Hden Hcol) as [ext [E Hext]].
  eexists. split.
  - eexists _, _. split; [exact E|].
    rewrite app_assoc, <- (Nat.add_0_r (length st + 4)).
    replace (length st + 4) with (length (st ++ ext)) by (rewrite length_app; lia).
    now rewrite lookup_new.
  - match goal with |- ?b = false => destruct b eqn:Hn end; auto. exfalso.
    unfold isnull_any in Hn. cbn [df_data] in Hn.
    apply existsb_exists in Hn. destruct Hn as [c [Hc Hn]].
    apply existsb_exists in Hn. destruct Hn as [x [Hx Hnan]].
    unfold log_ratios in Hc.
    apply in_map_iff in Hc. destruct Hc as [c0 [<- Hc0]]. cbn [snd] in Hx.
    apply in_map_iff in Hx. destruct Hx as [q [<- Hq]].
    apply in_zip_with in Hq. destruct Hq as (a & b & Ha & Hb' & ->).
    assert (In c0 (df_data d)) as Hc0d.
    { destruct keep_redundant_column; auto.
      unfold without_label in Hc0. apply filter_In in Hc0. tauto. }
    unfold strictly_positive in Hpos. rewrite Forall_forall in Hpos.
    pose proof (Hpos c0 Hc0d) as Pa. rewrite Forall_forall in Pa.
    pose proof (Hpos cd Hcd) as Pb. rewrite Forall_forall in Pb.
    destruct (Pa a Ha) as [ra [-> Hra]]. destruct (Pb b Hb') as [rb [-> Hrb]].
    rewrite log_truediv_finite in Hnan by assumption. discriminate.
Qed.

Lemma alr_transform_no_nan_witness :
  exists out,
    returns_frame (alr_transform 0 2 true) [ODataFrame SAMPLE_DATAFRAME] out
    /\ isnull_any out = false.
Proof.
  apply (alr_transform_no_nan [ODataFrame SAMPLE_DATAFRAME] 0 SAMPLE_DATAFRAME 2 true
           eq_refl SAMPLE_DATAFRAME_valid).
  unfold n_columns. simpl. lia.
Defined.

(** ** The shape of the result *)

Lemma zip_with_length {A B C : Type} (f : A -> B -> C) (xs : list A) (ys : list B) :
  length xs = length ys -> length (zip_with f xs ys) = length xs.
Proof.
  revert ys. induction xs as [|x xs IH]; intros [|y ys]; simpl; try discriminate; auto.
Qed.

Lemma without_label_length (den : string) (data : list (string * list float64)) :
  NoDup (map fst data) -> In den (map fst data) ->
  S (length (without_label den data)) = length data.
Proof.
  induction data as [|c data IH]; simpl; [tauto|].
  intros ND H. inversion ND as [|? ? Hn ND']; subst.
  unfold has_label at 1. destruct (String.eqb (fst c) den) eqn:E; simpl.
  - apply String.eqb_eq in E. subst den.
    fold (without_label (fst c) data). now rewrite (without_label_absent _ _ Hn).
  - apply String.eqb_neq in E. destruct H as [H|H]; [congruence|].
    f_equal. now apply IH.
Qed.

(** X4.  On a null-free rectangular table of n distinct columns the result
    has the row labels of the input, one value per row in every column, and
    n columns if keep_redundant_column is set, n - 1 otherwise. *)
Theorem alr_transform_shape (st : store) (df : ref) (d : DataFrame) (idx : Z)
        (keep_redundant_column : bool) :
  nth_error st df = Some (ODataFrame d) ->
  isnull_any d = false ->
  NoDup (columns d) ->
  rectangular d ->
  (- n_columns d <= idx < n_columns d)%Z ->
  exists out,
    returns_frame (alr_transform df idx keep_redundant_column) st out
    /\ df_index out = df_index d
    /\ rectangular out
    /\ (if keep_redundant_column
        then length (df_data out) = length (df_data d)
        else S (length (df_data out)) = length (df_data d)).
Proof.
  intros Hd Hnull ND Hrect Hidx.
  pose proof (in_bounds_bool d idx Hidx) as Hb. rewrite n_columns_length in Hb.
  destruct (index_getitem_in_bounds _ _ Hb) as [den [Hden Hin]].
  destruct (column_values_defined d den ND Hin) as [cd [Hcd [_ Hcol]]].
  destruct (alr_transform_value st df d idx keep_redundant_column den (snd cd)
              Hd Hnull ND Hden Hcol) as [ext [E Hext]].
  unfold rectangular in Hrect. rewrite Forall_forall in Hrect.
  eexists. split; [|split; [|split]].
  - eexists _, _. split; [exact E|].
    rewrite app_assoc, <- (Nat.add_0_r (length st + 4)).
    replace (length st + 4) with (length (st ++ ext)) by (rewrite length_app; lia).
    now rewrite lookup_new.
  - reflexivity.
  - unfold rectangular. cbn [df_data df_index]. apply Forall_forall.
    intros c Hc. unfold log_ratios in Hc.
    apply in_map_iff in Hc. destruct Hc as [c0 [<- Hc0]]. cbn [snd].
    assert (In c0 (df_data d)) as Hc0d.
    { destruct keep_redundant_column; auto.
      unfold without_label in Hc0. apply filter_In in Hc0. tauto. }
    rewrite length_map, zip_with_length; [now apply Hrect|].
    rewrite (Hrect c0 Hc0d). symmetry. now apply Hrect.
  - cbn [df_data]. unfold log_ratios. rewrite length_map.
    destruct keep_redundant_column; auto. now apply without_label_length.
Qed.

Lemma SAMPLE_DATAFRAME_rectangular : rectangular SAMPLE_DATAFRAME.
Proof. unfold rectangular. simpl. repeat constructor. Qed.

Lemma alr_transform_shape_witness :
  exists out,
    returns_frame (alr_transform 0 (-1) false) [ODataFrame SAMPLE_DATAFRAME] out
    /\ df_index out = df_index SAMPLE_DATAFRAME
    /\ rectangular out
    /\ S (length (df_data out)) = length (df_data SAMPLE_DATAFRAME).
Proof.
  apply (alr_transform_shape [ODataFrame SAMPLE_DATAFRAME] 0 SAMPLE_DATAFRAME (-1) false
           eq_refl eq_refl).
  - apply SAMPLE_DATAFRAME_valid.
  - exact SAMPLE_DATAFRAME_rectangular.
  - unfold n_columns. simpl. lia.
Defined.

(** ** Negative indices *)

Lemma index_getitem_negative (cols : list string) (idx : Z) :
  (- Z.of_nat (length cols) <= idx < 0)%Z ->
  index_getitem cols idx = index_getitem cols (idx + Z.of_nat (length cols)).
Proof.
  intros H. unfold index_getitem. cbv zeta.
  replace (0 <=? idx)%Z with false by (symmetry; apply Z.leb_gt; lia).
  replace (- Z.of_nat (length cols) <=? idx)%Z with true
    by (symmetry; apply Z.leb_le; lia).
  replace (0 <=? idx + Z.of_nat (length cols))%Z with true
    by (symmetry; apply Z.leb_le; lia).
  now rewrite Z.add_comm.
Qed.

(** X5.  A negative index counts columns from the end: on a table of n
    columns, idx in -n .. -1 and idx + n give the same call, result and
    store alike (the default -1 is the last column, n - 1). *)
Theorem alr_transform_negative_index (st : store) (df : ref) (d : DataFrame) (idx : Z)
        (keep_redundant_column : bool) :
  nth_error st df = Some (ODataFrame d) ->
  (- n_columns d <= idx < 0)%Z ->
  alr_transform df idx keep_redundant_column st
  = alr_transform df (idx + n_columns d) keep_redundant_column st.
Proof.
  intros Hd Hidx.
  destruct (isnull_any d) eqn:Hnull.
  { now rewrite !(alr_transform_null st df d). }
  assert (((- n_columns d <=? idx)%Z && (idx <? n_columns d)%Z) = true) as Hb
    by (apply in_bounds_bool; lia).
  assert (((- n_columns d <=? idx + n_columns d)%Z
           && (idx + n_columns d <? n_columns d)%Z) = true) as Hb'
    by (apply in_bounds_bool; lia).
  destruct (alr_run_exists d idx keep_redundant_column Hb)
    as (den & names & sel & s & Hrun).
  assert (alr_run d (idx + n_columns d) keep_redundant_column den names sel s) as Hrun'.
  { destruct Hrun as (Hden & Hrest). split; auto.
    rewrite n_columns_length, <- index_getitem_negative; auto.
    now rewrite <- n_columns_length. }
  rewrite (alr_transform_run st df d idx keep_redundant_column den names sel s);
    auto.
  now rewrite (alr_transform_run st df d (idx + n_columns d) keep_redundant_column
                 den names sel s).
Qed.

Lemma alr_transform_negative_index_witness :
  alr_transform 0 (-1) false [ODataFrame SAMPLE_DATAFRAME]
  = alr_transform 0 (-1 + n_columns SAMPLE_DATAFRAME) false
      [ODataFrame SAMPLE_DATAFRAME].
Proof.
  apply (alr_transform_negative_index [ODataFrame SAMPLE_DATAFRAME] 0
           SAMPLE_DATAFRAME (-1) false eq_refl).
  unfold n_columns. simpl. lia.
Defined.

(** ** With and without the denominator *)

Lemma without_label_log_ratios (den : string) (den_col : list float64)
      (data : list (string * list float64)) :
  without_label den (log_ratios den_col data)
  = log_ratios den_col (without_label den data).
Proof.
  unfold without_label, log_ratios.
  induction data as [|c data IH]; cbn [filter map]; auto.
  change (has_label den (fst c, map log (zip_with truediv (snd c) den_col)))
    with (has_label den c).
  destruct (has_label den c); cbn [negb map]; now rewrite IH.
Qed.

(** X6.  On a null-free table with distinct column names, the result
    without the redundant column is the result with it, less the column
    named after the denominator: the other columns are the same, in the
    same order, over the same rows. *)
Theorem alr_transform_drop_denominator (st : store) (df : ref) (d : DataFrame)
        (idx : Z) (den : string) :
  nth_error st df = Some (ODataFrame d) ->
  isnull_any d = false ->
  NoDup (columns d) ->
  index_getitem (columns d) idx = Some den ->
  exists kept dropped,
    returns_frame (alr_transform df idx true) st kept
    /\ returns_frame (alr_transform df idx false) st dropped
    /\ df_index dropped = df_index kept
    /\ df_data dropped = without_label den (df_data kept).
Proof.
  intros Hd Hnull ND Hden.
  destruct (index_getitem_bounds _ _ _ Hden) as [_ Hin].
  destruct (column_values_defined d den ND Hin) as [cd [Hcd [_ Hcol]]].
  destruct (alr_transform_value st df d idx true den (snd cd) Hd Hnull ND Hden Hcol)
    as [ext [E Hext]].
  destruct (alr_transform_value st df d idx false den (snd cd) Hd Hnull ND Hden Hcol)
    as [ext' [E' Hext']].
  eexists _, _. split; [|split; [|split]].
  - eexists _, _. split; [exact E|].
    rewrite app_assoc, <- (Nat.add_0_r (length st + 4)).
    replace (length st + 4) with (length (st ++ ext)) by (rewrite length_app; lia).
    now rewrite lookup_new.
  - eexists _, _. split; [exact E'|].
    rewrite app_assoc, <- (Nat.add_0_r (length st + 4)).
    replace (length st + 4) with (length (st ++ ext')) by (rewrite length_app; lia).
    now rewrite lookup_new.
  - reflexivity.
  - cbn [df_data]. now rewrite without_label_log_ratios.
Qed.

Lemma alr_transform_drop_denominator_witness :
  exists kept dropped,
    returns_frame (alr_transform 0 0 true) [ODataFrame SAMPLE_DATAFRAME] kept
    /\ returns_frame (alr_transform 0 0 false) [ODataFrame SAMPLE_DATAFRAME] dropped
    /\ df_index dropped = df_index kept
    /\ df_data dropped = without_label "a" (df_data kept).
Proof.
  apply (alr_transform_drop_denominator [ODataFrame SAMPLE_DATAFRAME] 0
           SAMPLE_DATAFRAME 0 "a"%string eq_refl eq_refl).
  - apply SAMPLE_DATAFRAME_valid.
  - reflexivity.
Defined.

(** ** The helper on its own *)

Lemma bind_raise {A B : Type} (m : M A) (k : A -> M B) (st st' : store) (e : exn) :
  m st = (Raise e, st') -> bind m k st = (Raise e, st').
Proof. intros H. unfold bind. now rewrite H. Qed.

Lemma filter_has_label_absent (name : string) (data : list (string * list float64)) :
  ~ In name (map fst data) -> filter (has_label name) data = [].
Proof.
  intros H. destruct (filter (has_label name) data) as [|c l] eqn:F; auto.
  exfalso. apply H.
  assert (In c (filter (has_label name) data)) as Hc by (rewrite F; now left).
  apply filter_In in Hc. destruct Hc as [Hc Hl].
  unfold has_label in Hl. apply String.eqb_eq in Hl. rewrite <- Hl. now apply in_map.
Qed.

Lemma take_labels_missing (data : list (string * list float64)) (names : list string)
      (name : string) :
  In name names -> ~ In name (map fst data) -> take_labels data names = None.
Proof.
  intros Hin Hmiss. induction names as [|n0 rest IH]; [destruct Hin|].
  cbn [take_labels]. destruct Hin as [->|Hin].
  - now rewrite (filter_has_label_absent _ _ Hmiss).
  - rewrite (IH Hin). now destruct (filter (has_label n0) data).
Qed.

Lemma getitem_missing (d : DataFrame) (name : string) :
  ~ In name (columns d) -> getitem d name = None.
Proof.
  intros H. unfold getitem. rewrite find_filter.
  now rewrite (filter_has_label_absent _ _ H).
Qed.

Lemma _alr_transform_not_a_frame (st : store) (df columns : ref) (den : string) :
  (forall d, nth_error st df <> Some (ODataFrame d)) ->
  _alr_transform df columns den st = (Raise BeartypeCallHintViolation, st).
Proof.
  intros H. unfold _alr_transform, beartype_DataFrame, bind, read_frame.
  destruct (nth_error st df) as [[d| |]|]; try reflexivity. now destruct (H d).
Qed.

Lemma _alr_transform_not_a_list (st : store) (df columns : ref) (d : DataFrame)
      (den : string) :
  nth_error st df = Some (ODataFrame d) ->
  (forall l, nth_error st columns <> Some (OList l)) ->
  _alr_transform df columns den st = (Raise BeartypeCallHintViolation, st).
Proof.
  intros Hd H. unfold _alr_transform.
  step run_beartype_DataFrame.
  unfold beartype_Sequence_str, bind, read_list.
  destruct (nth_error st columns) as [[| |l]|]; try reflexivity. now destruct (H l).
Qed.

Lemma _alr_transform_missing_numerator (st : store) (df columns : ref) (d : DataFrame)
      (names : list string) (den : string) :
  nth_error st df = Some (ODataFrame d) ->
  nth_error st columns = Some (OList names) ->
  getitem_list d names = None ->
  _alr_transform df columns den st = (Raise KeyError, st).
Proof.
  intros Hd Hl Hn. unfold _alr_transform.
  step run_beartype_DataFrame.
  step run_beartype_Sequence_str.
  apply bind_raise. unfold DataFrame_getitem_list.
  step run_read_frame. step run_read_list. now rewrite Hn.
Qed.

Lemma _alr_transform_missing_denominator (st : store) (df columns : ref) (d sel : DataFrame)
      (names : list string) (den : string) :
  nth_error st df = Some (ODataFrame d) ->
  nth_error st columns = Some (OList names) ->
  getitem_list d names = Some sel ->
  getitem d den = None ->
  _alr_transform df columns den st = (Raise KeyError, st ++ [ODataFrame sel]).
Proof.
  intros Hd Hl Hsel Hn. unfold _alr_transform.
  step run_beartype_DataFrame.
  step run_beartype_Sequence_str.
  step run_getitem_list.
  apply bind_raise. unfold DataFrame_getitem.
  step run_read_frame. now rewrite Hn.
Qed.

Lemma take_labels_present (data sel : list (string * list float64)) (names : list string) :
  take_labels data names = Some sel ->
  forall name, In name names -> In name (map fst data).
Proof.
  intros H name Hin.
  destruct (in_dec string_dec name (map fst data)) as [|Hmiss]; auto.
  rewrite (take_labels_missing data names name Hin Hmiss) in H. discriminate.
Qed.

(** X7.  [_alr_transform], given a frame and a list of labels: if the
    denominator and every label of the list name a column of the frame, it
    returns a frame over the rows of the input; if one of them names no
    column, it raises KeyError. *)
Theorem alr_helper_labels (st : store) (df columns : ref) (d : DataFrame)
        (names : list string) (denominator_column : string) :
  nth_error st df = Some (ODataFrame d) ->
  nth_error st columns = Some (OList names) ->
  ((forall name, In name (denominator_column :: names) -> In name (Pandas.columns d)) ->
   exists out,
     returns_frame (_alr_transform df columns denominator_column) st out
     /\ df_index out = df_index d)
  /\ ((exists name, In name (denominator_column :: names)
                    /\ ~ In name (Pandas.columns d)) ->
      raises (_alr_transform df columns denominator_column) st KeyError).
Proof.
  intros Hd Hl. split.
  - intros Hall.
    destruct (take_labels_defined (df_data d) names) as [sel Hsel].
    { intros name Hn. apply Hall. now right. }
    destruct (getitem_defined d denominator_column) as [c [Hs _]].
    { apply Hall. now left. }
    eexists. split.
    + eexists _, _. split.
      * eapply (_alr_transform_run st df columns d); eauto.
        unfold getitem_list. now rewrite Hsel.
      * rewrite lookup_new. reflexivity.
    + reflexivity.
  - intros [name [Hin Hmiss]].
    destruct (getitem_list d names) as [sel|] eqn:Hsel.
    + eexists. eapply _alr_transform_missing_denominator; eauto.
      destruct Hin as [->|Hin]; [now apply getitem_missing|].
      exfalso. apply Hmiss. unfold getitem_list in Hsel.
      destruct (take_labels (df_data d) names) as [data|] eqn:T; [|discriminate].
      now apply (take_labels_present _ _ _ T).
    + eexists. eapply _alr_transform_missing_numerator; eauto.
Qed.

Lemma alr_helper_labels_witness :
  (exists out,
     returns_frame (_alr_transform 0 1 "d")
                   [ODataFrame SAMPLE_DATAFRAME; OList ["b"; "a"]%string] out
     /\ df_index out = df_index SAMPLE_DATAFRAME)
  /\ raises (_alr_transform 0 1 "e")
            [ODataFrame SAMPLE_DATAFRAME; OList ["b"; "a"]%string] KeyError.
Proof.
  split.
  - apply (alr_helper_labels [ODataFrame SAMPLE_DATAFRAME; OList ["b"; "a"]%string]
             0 1 SAMPLE_DATAFRAME ["b"; "a"]%string "d"%string eq_refl eq_refl).
    intros name H. simpl in H. unfold Pandas.columns. simpl.
    destruct H as [<-|[<-|[<-|[]]]]; auto.
  - apply (alr_helper_labels [ODataFrame SAMPLE_DATAFRAME; OList ["b"; "a"]%string]
             0 1 SAMPLE_DATAFRAME ["b"; "a"]%string "e"%string eq_refl eq_refl).
    exists "e"%string. split; [now left|].
    unfold Pandas.columns. simpl. intuition discriminate.
Defined.

(** ** No call changes an object of the caller *)

Lemma extends_refl (st : store) : extends st st.
Proof. exists []. now rewrite app_nil_r. Qed.

Lemma extends_app (st ext : store) : extends st (st ++ ext).
Proof. now exists ext. Qed.

(** X8.  Whatever [_alr_transform] is given and however it ends, the store
    afterwards is the store before with new objects after it: the frame and
    the list of labels passed in are not changed, also when it raises. *)
Theorem alr_helper_extends (st : store) (df columns : ref) (denominator_column : string) :
  extends st (snd (_alr_transform df columns denominator_column st)).
Proof.
  destruct (nth_error st df) as [o|] eqn:E.
  2:{ rewrite _alr_transform_not_a_frame by (intros d; congruence). apply extends_refl. }
  destruct o as [d|s|l].
  2,3: rewrite _alr_transform_not_a_frame by (intros d; congruence); apply extends_refl.
  destruct (nth_error st columns) as [o|] eqn:El.
  2:{ rewrite (_alr_transform_not_a_list st df columns d) by (auto; intros l; congruence).
      apply extends_refl. }
  destruct o as [d'|s|names].
  1,2: rewrite (_alr_transform_not_a_list st df columns d)
         by (auto; intros l; congruence); apply extends_refl.
  destruct (getitem_list d names) as [sel|] eqn:Hsel.
  2:{ rewrite (_alr_transform_missing_numerator st df columns d names) by assumption.
      apply extends_refl. }
  destruct (getitem d denominator_column) as [s|] eqn:Hs.
  - rewrite (_alr_transform_run st df columns d sel names denominator_column s)
      by assumption.
    apply extends_app.
  - rewrite (_alr_transform_missing_denominator st df columns d sel names) by assumption.
    apply extends_app.
Qed.

(** X9.  However [alr_transform] ends, returning or raising, the store
    afterwards is the store before with new objects after it: no object of
    the caller is changed by a call that fails either. *)
Theorem alr_transform_extends (st : store) (df : ref) (idx : Z)
        (keep_redundant_column : bool) :
  extends st (snd (alr_transform df idx keep_redundant_column st)).
Proof.
  destruct (nth_error st df) as [o|] eqn:E.
  2:{ rewrite alr_transform_not_a_frame by (intros d; congruence). apply extends_refl. }
  destruct o as [d|s|l].
  2,3: rewrite alr_transform_not_a_frame by (intros d; congruence); apply extends_refl.
  destruct (isnull_any d) eqn:Hnull.
  { rewrite (alr_transform_null st df d) by assumption. apply extends_refl. }
  destruct ((- n_columns d <=? idx)%Z && (idx <? n_columns d)%Z) eqn:Hb.
  2:{ rewrite (alr_transform_out_of_bounds st df d) by assumption. apply extends_app. }
  destruct (alr_run_exists d idx keep_redundant_column Hb)
    as (den & names & sel & s & Hrun).
  rewrite (alr_transform_run st df d idx keep_redundant_column den names sel s)
    by assumption.
  apply extends_app.
Qed.

(* ================================================================== *)
(** * The test of the zero cell (clr_test.py) *)

Lemma run_copy (st : store) (r : ref) (d : DataFrame) :
  nth_error st r = Some (ODataFrame d) ->
  DataFrame_copy r st = alloc (ODataFrame d) st.
Proof.
  intros H. unfold DataFrame_copy, bind. now rewrite (run_read_frame _ _ _ H).
Qed.

Lemma run_iloc_setitem (st : store) (r : ref) (d : DataFrame) (i j : Z)
      (row col : nat) (x : float64) :
  nth_error st r = Some (ODataFrame d) ->
  position (length (df_index d)) i = Some row ->
  position (length (df_data d)) j = Some col ->
  DataFrame_iloc_setitem r i j x st
  = (Ok tt, update st r (ODataFrame (set_cell d row col x))).
Proof.
  intros H Hi Hj. unfold DataFrame_iloc_setitem, bind.
  rewrite (run_read_frame _ _ _ H), Hi, Hj. reflexivity.
Qed.

Lemma position_first (n : nat) : 0 < n -> position n 0 = Some 0.
Proof.
  intros H. unfold position. simpl.
  replace (0 <? Z.of_nat n)%Z with true by (symmetry; apply Z.ltb_lt; lia).
  reflexivity.
Qed.

(** X10.  [test_clr_transform_contains_zeros] passes on every null-free
    table that has a first row and a first column, the sample of the test
    file among them: the zero written into the copy makes [clr_transform]
    raise NumericValueSign, and the table the copy was taken from is left
    as it was. *)
Theorem test_clr_transform_contains_zeros_passes (st : store) (sample : ref)
        (d : DataFrame) (name : string) (x : float64) (xs : list float64)
        (rest : list (string * list float64)) :
  nth_error st sample = Some (ODataFrame d) ->
  isnull_any d = false ->
  df_index d <> [] ->
  df_data d = (name, x :: xs) :: rest ->
  test_clr_transform_contains_zeros sample st
  = (Ok true,
     st ++ [ODataFrame (mkDataFrame (df_index d) ((name, Fin 0 :: xs) :: rest))]).
Proof.
  intros Hd Hnull Hrows Hdata.
  set (d' := mkDataFrame (df_index d) ((name, Fin 0 :: xs) :: rest)).
  assert (set_cell d 0 0 (Fin 0) = d') as Hset.
  { unfold set_cell. rewrite Hdata. reflexivity. }
  assert (isnull_any d' = false) as Hnull'.
  { unfold isnull_any in *. rewrite Hdata in Hnull. cbn in *.
    apply orb_false_iff in Hnull. destruct Hnull as [Hc Hr].
    apply orb_false_iff in Hc. destruct Hc as [_ Hc]. now rewrite Hc, Hr. }
  assert (all_positive d' = false) as Hpos'.
  { unfold all_positive. cbn. now rewrite (Rltb_false 0 0) by lra. }
  unfold test_clr_transform_contains_zeros, pytest_raises.
  assert ((df <- DataFrame_copy sample ;;
           DataFrame_iloc_setitem df 0 0 (Fin 0) ;;
           clr_transform df) st
          = (Raise NumericValueSignException, st ++ [ODataFrame d'])) as E.
  { erewrite bind_run by (erewrite run_copy by eassumption; apply alloc_run).
    erewrite bind_run.
    2:{ eapply (run_iloc_setitem _ _ d).
        - rewrite lookup_end. reflexivity.
        - apply position_first. destruct (df_index d); [congruence | simpl; lia].
        - apply position_first. rewrite Hdata. simpl. lia. }
    rewrite update_end, Hset.
    apply (clr_transform_rejects_non_positive _ _ d'); auto.
    rewrite lookup_end. reflexivity. }
  rewrite E. reflexivity.
Qed.

Lemma test_clr_transform_contains_zeros_passes_witness :
  test_clr_transform_contains_zeros 0 [ODataFrame SAMPLE_DATAFRAME]
  = (Ok true,
     [ODataFrame SAMPLE_DATAFRAME]
     ++ [ODataFrame
           (mkDataFrame (df_index SAMPLE_DATAFRAME)
              (("a"%string, [Fin 0; Fin 63])
               :: [("b", [Fin 12; Fin 16]); ("c", [Fin 18; Fin 15]);
                   ("d", [Fin 5; Fin 6])]%string))]).
Proof.
  apply (test_clr_transform_contains_zeros_passes [ODataFrame SAMPLE_DATAFRAME] 0
           SAMPLE_DATAFRAME "a"%string (Fin 65) [Fin 63]
           [("b", [Fin 12; Fin 16]); ("c", [Fin 18; Fin 15]);
            ("d", [Fin 5; Fin 6])]%string eq_refl eq_refl).
  - discriminate.
  - reflexivity.
Defined.
